(** * Wrapper tasks for the SFDX CLI: a shallow embedding of
    [cumulusci/tasks/sfdx.py] and the properties of its line handlers,
    polling hooks, command builders and exit-code handler. *)

From Stdlib Require Import ZArith String Ascii List.
From stdpp Require Import base option gmap strings pretty.

Set Warnings "-register-all".
Local Open Scope string_scope.

(** ** Values decoded by [json.loads] *)

(** A decoded JSON document.  Objects are Python dicts, hence finite maps
    keyed by strings.  [JInt] carries the integral numbers and [JReal] a
    decimal literal [m * 10^e] for the others. *)
Inductive json : Type :=
  | JNull
  | JBool (b : bool)
  | JInt (n : Z)
  | JReal (m e : Z)
  | JString (s : string)
  | JArray (l : list json)
  | JObject (o : gmap string json).

(** Python truth value of a decoded document, as tested by [if x:] and
    [not x]. *)
Definition truthy (v : json) : bool :=
  match v with
  | JNull => false
  | JBool b => b
  | JInt n => negb (n =? 0)%Z
  | JReal m _ => negb (m =? 0)%Z
  | JString s => negb (String.eqb s "")
  | JArray l => match l with [] => false | _ :: _ => true end
  | JObject o => negb (bool_decide (o = ∅))
  end.

(** [x == 0] on a decoded document; [False == 0] holds in Python because
    [bool] is a subclass of [int]. *)
Definition py_eq_zero (v : json) : bool :=
  match v with
  | JInt n => (n =? 0)%Z
  | JReal m _ => (m =? 0)%Z
  | JBool b => negb b
  | _ => false
  end.

(** ** Exceptions and log records *)

(** Text of a [CommandException]: either a value taken from the last
    record or the generic text built from the exit code. *)
Inductive failure_text : Type :=
  | FromRecord (v : json)
  | FromReturnCode (returncode : Z).

Inductive exn : Type :=
  | TypeError
  | KeyError (key : string)
  | AttributeError (attr : string)
  | ValueError
  | NotImplementedError
  | OSError
  | CommandException (text : failure_text).

(** One constructor per [self.logger] call of the module. *)
Inductive log_record : Type :=
  | Error_parse (line : string)
  | Info_json (data : json)
  | Info_poll_data (data : json)
  | Info_converted_dx (src dest : string)
  | Info_converted_metadata (src dest : string)
  | Error_message (message : json).

(** ** The task object *)

Inductive task_class : Type :=
  | SFDXBaseTask
  | SFDXOrgTask
  | SFDXJsonTask
  | SFDXJsonPollingTask
  | SFDXConvertFrom
  | SFDXConvertTo
  | SFDXDeploy.

(** [isinstance(self, SFDXJsonPollingTask)]. *)
Definition is_polling (c : task_class) : bool :=
  match c with
  | SFDXJsonPollingTask | SFDXDeploy => true
  | _ => false
  end.

(** Classes that inherit [_process_output] from [SFDXJsonTask] unchanged. *)
Definition is_result_task (c : task_class) : bool :=
  match c with
  | SFDXJsonTask | SFDXConvertFrom | SFDXConvertTo => true
  | _ => false
  end.

(** [isinstance(self, SFDXJsonTask)]. *)
Definition is_json_task (c : task_class) : bool :=
  is_result_task c || is_polling c.

(** The org the task is bound to; [scratch] is
    [isinstance(org_config, ScratchOrgConfig)]. *)
Record org : Type := Org {
  scratch : bool;
  username : string;
  instance_url : string;
  access_token : string
}.

(** A finished subprocess: the lines it wrote and its exit status. *)
Record process : Type := Process {
  stdout : list string;
  returncode : Z
}.

Record task : Type := Task {
  cls : task_class;
  options : gmap string string;
  org_config : option org;
  return_values : gmap string json;
  (** [None]: the attribute does not exist; [Some JNull]: it is [None]. *)
  job_id : option json;
  poll_complete : bool;
  logger : list log_record;
  (** Command and environment of every subprocess started so far. *)
  spawned : list (option string * gmap string string)
}.

Definition set_return_value (k : string) (v : json) (s : task) : task :=
  Task (cls s) (options s) (org_config s) (<[k := v]> (return_values s))
       (job_id s) (poll_complete s) (logger s) (spawned s).

Definition set_job_id (v : json) (s : task) : task :=
  Task (cls s) (options s) (org_config s) (return_values s)
       (Some v) (poll_complete s) (logger s) (spawned s).

Definition set_poll_complete (b : bool) (s : task) : task :=
  Task (cls s) (options s) (org_config s) (return_values s)
       (job_id s) b (logger s) (spawned s).

Definition add_log (r : log_record) (s : task) : task :=
  Task (cls s) (options s) (org_config s) (return_values s)
       (job_id s) (poll_complete s) (logger s ++ [r]) (spawned s).

Definition add_spawned (c : option string) (e : gmap string string)
    (s : task) : task :=
  Task (cls s) (options s) (org_config s) (return_values s)
       (job_id s) (poll_complete s) (logger s) (spawned s ++ [(c, e)]).

(** ** Methods as state transformers that may raise *)

Inductive outcome (A : Type) : Type :=
  | Return (a : A)
  | Raise (e : exn)
  | OutOfFuel.
Arguments Return {A} a.
Arguments Raise {A} e.
Arguments OutOfFuel {A}.

(** The attributes keep the values they had when an exception left the
    method, as in Python. *)
Definition M (A : Type) : Type := task -> outcome A * task.

Definition ret {A} (a : A) : M A := fun s => (Return a, s).
Definition raise {A} (e : exn) : M A := fun s => (Raise e, s).
Definition out_of_fuel {A} : M A := fun s => (OutOfFuel, s).
Definition bind {A B} (m : M A) (k : A -> M B) : M B :=
  fun s =>
    match m s with
    | (Return a, s') => k a s'
    | (Raise e, s') => (Raise e, s')
    | (OutOfFuel, s') => (OutOfFuel, s')
    end.
Definition gets {A} (f : task -> A) : M A := fun s => (Return (f s), s).
Definition modify (f : task -> task) : M unit := fun s => (Return tt, f s).

Declare Scope py_scope.
Delimit Scope py_scope with py.
Notation "x <- m ;; k" := (bind m (fun x => k))
  (at level 100, m at next level, right associativity) : py_scope.
Notation "m ;;; k" := (bind m (fun _ => k))
  (at level 100, right associativity) : py_scope.
Local Open Scope py_scope.

(** Method resolution on the class of [self]. *)
Definition dispatch {A} (f : task_class -> M A) : M A :=
  fun s => f (cls s) s.

(** Calling a bound method declared as [def f(self)] with the positional
    arguments [args]: Python raises [TypeError] unless there are none. *)
Definition call_self_only {A} (f : M A) (args : list json) : M A :=
  match args with
  | [] => f
  | _ :: _ => raise TypeError
  end.

(** [obj[key]] on a decoded document. *)
Definition py_getitem (v : json) (key : string) : M json :=
  match v with
  | JObject o =>
      match o !! key with
      | Some x => ret x
      | None => raise (KeyError key)
      end
  | _ => raise TypeError
  end.

(** [obj.get(key, default)] on a decoded document. *)
Definition py_get (v : json) (key : string) (default_v : json) : M json :=
  match v with
  | JObject o => ret (default default_v (o !! key))
  | _ => raise (AttributeError "get")
  end.

(** [self.return_values['data']]. *)
Definition return_values_data : M json :=
  fun s =>
    match return_values s !! "data" with
    | Some v => (Return v, s)
    | None => (Raise (KeyError "data"), s)
    end.

(** [self.options[key]]. *)
Definition options_getitem (key : string) : M string :=
  fun s =>
    match options s !! key with
    | Some v => (Return v, s)
    | None => (Raise (KeyError key), s)
    end.

(** [self.job_id]. *)
Definition get_job_id : M json :=
  fun s =>
    match job_id s with
    | Some v => (Return v, s)
    | None => (Raise (AttributeError "job_id"), s)
    end.

(** [hasattr(self, 'job_id')]. *)
Definition hasattr_job_id (s : task) : bool :=
  match job_id s with Some _ => true | None => false end.

(** [needle in hay] on strings. *)
Fixpoint contains (needle hay : string) : bool :=
  String.prefix needle hay
  || match hay with
     | EmptyString => false
     | String _ rest => contains needle rest
     end.

(** ** A decoder for a fragment of JSON

    Objects, arrays, string literals without escapes, [null], [true],
    [false] and integers.  It takes the place of [json.loads] wherever a
    property is evaluated on concrete lines; the properties themselves
    hold for every decoder. *)

Module Json.

Definition dquote : ascii := "034"%char.
Definition backslash : ascii := "092"%char.

Definition is_space (c : ascii) : bool :=
  (c =? " ")%char || (c =? "009")%char || (c =? "010")%char
  || (c =? "013")%char.

Fixpoint skip_space (s : string) : string :=
  match s with
  | String c rest => if is_space c then skip_space rest else s
  | EmptyString => s
  end.

Definition digit_of (c : ascii) : option Z :=
  let n := Z.of_nat (nat_of_ascii c) in
  if (48 <=? n)%Z && (n <=? 57)%Z then Some (n - 48)%Z else None.

Fixpoint scan_digits (acc : Z) (s : string) : Z * string :=
  match s with
  | String c rest =>
      match digit_of c with
      | Some d => scan_digits (10 * acc + d)%Z rest
      | None => (acc, s)
      end
  | EmptyString => (acc, s)
  end.

(** The body of a string literal up to its closing quote. *)
Fixpoint scan_string (s : string) : option (string * string) :=
  match s with
  | EmptyString => None
  | String c rest =>
      if (c =? dquote)%char then Some (EmptyString, rest)
      else if (c =? backslash)%char then None
      else
        match scan_string rest with
        | Some (body, rest') => Some (String c body, rest')
        | None => None
        end
  end.

Definition strip_prefix (p s : string) : option string :=
  if String.prefix p s
  then Some (String.substring (String.length p)
               (String.length s - String.length p) s)
  else None.

(** A [0] followed by another digit, which JSON does not allow. *)
Definition leading_zero (s : string) : bool :=
  match s with
  | String "0" (String c _) =>
      match digit_of c with Some _ => true | None => false end
  | _ => false
  end.

Definition scan_integer (s : string) : option (json * string) :=
  let (negative, body) :=
    match s with
    | String "-" rest => (true, rest)
    | _ => (false, s)
    end in
  match body with
  | String c after =>
      match digit_of c, leading_zero body with
      | Some _, false =>
          let (n, rest) := scan_digits 0 body in
          match rest with
          | String "." _ | String "e" _ | String "E" _ => None
          | _ => Some (JInt (if negative then - n else n)%Z, rest)
          end
      | _, _ => None
      end
  | EmptyString => None
  end.

Fixpoint parse_value (fuel : nat) (s : string) : option (json * string) :=
  match fuel with
  | O => None
  | S fuel' =>
      let s := skip_space s in
      match s with
      | String "{" rest =>
          match skip_space rest with
          | String "}" rest' => Some (JObject ∅, rest')
          | _ => parse_members fuel' ∅ rest
          end
      | String "[" rest =>
          match skip_space rest with
          | String "]" rest' => Some (JArray [], rest')
          | _ => parse_elements fuel' [] rest
          end
      | String c rest =>
          if (c =? dquote)%char then
            match scan_string rest with
            | Some (body, rest') => Some (JString body, rest')
            | None => None
            end
          else
            match strip_prefix "null" s, strip_prefix "true" s,
                  strip_prefix "false" s with
            | Some rest', _, _ => Some (JNull, rest')
            | _, Some rest', _ => Some (JBool true, rest')
            | _, _, Some rest' => Some (JBool false, rest')
            | _, _, _ => scan_integer s
            end
      | EmptyString => None
      end
  end
with parse_members (fuel : nat) (acc : gmap string json) (s : string)
    : option (json * string) :=
  match fuel with
  | O => None
  | S fuel' =>
      match skip_space s with
      | String c rest =>
          if (c =? dquote)%char then
            match scan_string rest with
            | Some (key, rest') =>
                match skip_space rest' with
                | String ":" rest'' =>
                    match parse_value fuel' rest'' with
                    | Some (v, after) =>
                        let acc := <[key := v]> acc in
                        match skip_space after with
                        | String "," more => parse_members fuel' acc more
                        | String "}" more => Some (JObject acc, more)
                        | _ => None
                        end
                    | None => None
                    end
                | _ => None
                end
            | None => None
            end
          else None
      | EmptyString => None
      end
  end
with parse_elements (fuel : nat) (acc : list json) (s : string)
    : option (json * string) :=
  match fuel with
  | O => None
  | S fuel' =>
      match parse_value fuel' s with
      | Some (v, after) =>
          let acc := (acc ++ [v])%list in
          match skip_space after with
          | String "," more => parse_elements fuel' acc more
          | String "]" more => Some (JArray acc, more)
          | _ => None
          end
      | None => None
      end
  end.

(** One document, with nothing but blanks after it. *)
Definition loads (line : string) : option json :=
  match parse_value (S (String.length line)) line with
  | Some (v, rest) =>
      match skip_space rest with
      | EmptyString => Some v
      | _ => None
      end
  | None => None
  end.

Definition quoted (s : string) : string :=
  String dquote (s ++ String dquote EmptyString).

End Json.

(** ** Sample inputs *)

Module Sample.

(** [{"id": "J1", "done": false}], [{"done": false}], [{"done": true}]
    and two lines a converter may print. *)
Definition started_line : string :=
  "{" ++ Json.quoted "id" ++ ": " ++ Json.quoted "J1" ++ ", "
  ++ Json.quoted "done" ++ ": false}".
Definition pending_line : string := "{" ++ Json.quoted "done" ++ ": false}".
Definition done_line : string := "{" ++ Json.quoted "done" ++ ": true}".
Definition status_line : string := "{" ++ Json.quoted "status" ++ ": 1}".
Definition garbage_line : string := "ERROR running force:mdapi:deploy".

Definition started_record : json :=
  JObject {[ "id" := JString "J1"; "done" := JBool false ]}.
Definition pending_record : json := JObject {[ "done" := JBool false ]}.
Definition done_record : json := JObject {[ "done" := JBool true ]}.
Definition status_record : json := JObject {[ "status" := JInt 1 ]}.
Definition failure_record : json :=
  JObject {[ "status" := JInt 1; "message" := JString "bad path" ]}.

Definition py_str (v : json) : string :=
  match v with
  | JNull => "None"
  | JBool true => "True"
  | JBool false => "False"
  | JInt n => pretty n
  | _ => "<value>"
  end.

Definition environ (_ : task) : gmap string string :=
  {[ "PATH" := "/usr/bin" ]}.

Definition echo (_ : string) : task -> outcome unit * task :=
  fun s => (Return tt, s).

(** A deployment that reports its job and is done at the third poll. *)
Definition popen (n : nat) (_ : option string) (_ : gmap string string)
    : option process :=
  match n with
  | 0 => Some (Process [started_line] 0)
  | 1 | 2 => Some (Process [pending_line] 0)
  | 3 => Some (Process [done_line] 0)
  | _ => None
  end.

Definition scratch_org : org :=
  Org true "test-user@example.com" "https://cs1.salesforce.com" "00D!token".
Definition keychain_org : org :=
  Org false "admin@example.com" "https://na1.salesforce.com" "00D!token".

(** A task of class [c] as [__init__] leaves it: nothing returned, no
    poll complete, no process started. *)
Definition new_task (c : task_class) (opts : gmap string string)
    (o : option org) : task :=
  Task c opts o ∅ (if is_polling c then Some JNull else None) false [] [].

Definition deploy_options : gmap string string :=
  {[ "command" := "force:mdapi:deploy"; "path" := "src" ]}.
Definition convert_options : gmap string string :=
  {[ "command" := "force:source:convert"; "src" := "force-app";
     "dest" := "src" ]}.

Definition deploy_task : task :=
  new_task SFDXDeploy deploy_options (Some scratch_org).
Definition keychain_task : task :=
  new_task SFDXDeploy deploy_options (Some keychain_org).
Definition convert_task : task :=
  new_task SFDXConvertFrom convert_options None.

(** The task once [r] is its last record. *)
Definition holding (r : json) (s : task) : task :=
  set_return_value "data" r s.

(** The deployment after its first line: job J1 is known. *)
Definition polling_task : task :=
  set_job_id (JString "J1") (holding started_record deploy_task).

(** More lines: [[1, 2]], [{"status": 0}] and
    [{"status": 1, "message": "bad path"}]. *)
Definition list_line : string := "[1, 2]".
Definition ok_line : string := "{" ++ Json.quoted "status" ++ ": 0}".
Definition failure_line : string :=
  "{" ++ Json.quoted "status" ++ ": 1, " ++ Json.quoted "message" ++ ": "
  ++ Json.quoted "bad path" ++ "}".
Definition list_record : json := JArray [JInt 1; JInt 2].
Definition ok_record : json := JObject {[ "status" := JInt 0 ]}.

Definition json_task : task := new_task SFDXJsonTask deploy_options None.
Definition convert_to_task : task :=
  new_task SFDXConvertTo convert_options None.

(** The deployment while its first process runs. *)
Definition running_task : task :=
  add_spawned (Some "force:mdapi:deploy") (environ deploy_task) deploy_task.

(** A deployment on which [_init_task] has not run. *)
Definition uninitialised_task : task :=
  Task SFDXDeploy deploy_options (Some scratch_org) ∅ None false [] [].

(** The keyword arguments are added to the options. *)
Definition init_options (kwargs : gmap string string)
    : task -> outcome unit * task :=
  fun s =>
    (Return tt,
     Task (cls s) (kwargs ∪ options s) (org_config s) (return_values s)
          (job_id s) (poll_complete s) (logger s) (spawned s)).

End Sample.

(** ** The module *)

Definition SFDX_CLI : string := "sfdx".

Section Tasks.

(** [json.loads]; [None] stands for the exception it raises on a line
    that is not JSON. *)
Variable json_loads : string -> option json.

(** [str.format] applied to a decoded document that is not a string. *)
Variable py_str : json -> string.

(** The subprocess the operating system runs for the n-th invocation of
    a command in an environment; [None] when it cannot be started. *)
Variable popen : nat -> option string -> gmap string string -> option process.

(** [Command._get_env] and [Command._process_output] of
    [cumulusci/tasks/command.py], which sfdx.py imports. *)
Variable Command_get_env : task -> gmap string string.
Variable Command_process_output : string -> M unit.

(** ['{}'.format(v)]. *)
Definition format_value (v : json) : string :=
  match v with
  | JString s => s
  | _ => py_str v
  end.

(** *** SFDXBaseTask *)

(** The class attribute [command]; only the converters override it. *)
Definition class_command (c : task_class) : string :=
  match c with
  | SFDXConvertFrom => "force:source:convert"
  | SFDXConvertTo => "force:mdapi:convert"
  | _ => "force --help"
  end.

Definition SFDXBaseTask_get_command (s : task) : string :=
  let command :=
    SFDX_CLI ++ " "
    ++ default (class_command (cls s)) (options s !! "command") in
  command.

(** *** SFDXOrgTask *)

Definition SFDXOrgTask_get_command (s : task) : string :=
  let command := SFDXBaseTask_get_command s in
  match org_config s with
  | Some o =>
      if scratch o then command ++ " -u " ++ username o else command
  | None => command
  end.

Definition SFDXOrgTask_get_env : M (gmap string string) :=
  env <- gets Command_get_env ;;
  o <- gets org_config ;;
  match o with
  | Some o =>
      if negb (scratch o) then
        let env := <["SFDX_INSTANCE_URL" := instance_url o]> env in
        let env := <["SFDX_USERNAME" := access_token o]> env in
        ret env
      else ret env
  | None => raise (AttributeError "instance_url")
  end.

(** [self._get_env()]. *)
Definition _get_env : M (gmap string string) :=
  dispatch (fun c =>
    match c with
    | SFDXOrgTask | SFDXDeploy => SFDXOrgTask_get_env
    | _ => gets Command_get_env
    end).

(** *** Command and BaseTask *)

(** Modelled from the spec: [Command._handle_returncode] is not in
    sfdx.py.  A non-zero exit status is a failure whose text is generic
    and refers to the exit code; zero is success. *)
Definition Command_handle_returncode (rc : Z) : M unit :=
  if negb (rc =? 0)%Z
  then raise (CommandException (FromReturnCode rc))
  else ret tt.

Fixpoint for_each (handler : string -> M unit) (lines : list string)
    : M unit :=
  match lines with
  | [] => ret tt
  | line :: rest => handler line ;;; for_each handler rest
  end.

(** Modelled from the spec: [Command._run_command] is not in sfdx.py.
    It starts one process for the command in the environment, hands
    every line to the line handler in the order written, one at a time,
    and then gives the exit status to the exit-code handler; a process
    that cannot be started is a launch failure.  [command] is [None] when
    the caller passes Python's [None]; what is run then is up to
    [popen]. *)
Definition Command_run_command (handler : string -> M unit)
    (handle_returncode : Z -> M unit)
    (env : gmap string string) (command : option string) : M unit :=
  n <- gets (fun s => length (spawned s)) ;;
  modify (add_spawned command env) ;;;
  match popen n command env with
  | None => raise OSError
  | Some p =>
      for_each handler (stdout p) ;;;
      handle_returncode (returncode p)
  end.

(** Modelled from the spec: [BaseTask._poll] is not in sfdx.py.  It runs
    the poll action again and again until the completion flag is set;
    [n] bounds the number of rounds. *)
Fixpoint BaseTask_poll (poll_action : M unit) (n : nat) : M unit :=
  match n with
  | O => out_of_fuel
  | S n' =>
      poll_action ;;;
      complete <- gets poll_complete ;;
      if complete then ret tt else BaseTask_poll poll_action n'
  end.

(** *** SFDXJsonTask *)

Definition SFDXJsonTask_process_data : M unit :=
  data <- return_values_data ;;
  modify (add_log (Info_json data)).

(** *** SFDXConvertFrom and SFDXConvertTo *)

Definition SFDXConvertFrom_process_data : M unit :=
  data <- return_values_data ;;
  status <- py_get data "status" JNull ;;
  if py_eq_zero status then
    src <- options_getitem "src" ;;
    dest <- options_getitem "dest" ;;
    modify (add_log (Info_converted_dx src dest))
  else ret tt.

Definition SFDXConvertFrom_handle_returncode (rc : Z) : M unit :=
  if negb (rc =? 0)%Z then
    data <- return_values_data ;;
    message <- py_getitem data "message" ;;
    modify (add_log (Error_message message)) ;;;
    data <- return_values_data ;;
    message <- py_getitem data "message" ;;
    raise (CommandException (FromRecord message))
  else ret tt.

Definition SFDXConvertTo_process_data : M unit :=
  data <- return_values_data ;;
  status <- py_get data "status" JNull ;;
  if py_eq_zero status then
    src <- options_getitem "src" ;;
    dest <- options_getitem "dest" ;;
    modify (add_log (Info_converted_metadata src dest))
  else ret tt.

(** [self._handle_returncode(returncode, stderr)]. *)
Definition _handle_returncode (rc : Z) : M unit :=
  dispatch (fun c =>
    match c with
    | SFDXConvertFrom => SFDXConvertFrom_handle_returncode rc
    | _ => Command_handle_returncode rc
    end).

(** *** SFDXJsonPollingTask *)

(** [BaseTask._init_task], called first, does nothing. *)
Definition SFDXJsonPollingTask_init_task : M unit :=
  modify (set_job_id JNull).

Definition SFDXJsonPollingTask_check_poll_done : M json :=
  data <- return_values_data ;;
  py_get data "done" (JBool true).

Definition SFDXJsonPollingTask_process_poll_data : M unit :=
  data <- return_values_data ;;
  modify (add_log (Info_poll_data data)) ;;;
  data <- return_values_data ;;
  done <- call_self_only SFDXJsonPollingTask_check_poll_done [data] ;;
  if truthy done then modify (set_poll_complete true) else ret tt.

Definition SFDXJsonPollingTask_get_poll_command : M (option string) :=
  raise NotImplementedError.

(** *** SFDXDeploy *)

Definition SFDXDeploy_get_poll_command : M (option string) :=
  j <- get_job_id ;;
  if negb (truthy j) then ret None
  else
    command <- gets SFDXOrgTask_get_command ;;
    j <- get_job_id ;;
    let command := command ++ " -i " ++ format_value j in
    ret (Some command).

(** [self._get_poll_command()]. *)
Definition _get_poll_command : M (option string) :=
  dispatch (fun c =>
    match c with
    | SFDXDeploy => SFDXDeploy_get_poll_command
    | SFDXJsonPollingTask => SFDXJsonPollingTask_get_poll_command
    | _ => raise (AttributeError "_get_poll_command")
    end).

(** *** The line handlers

    [_process_output] reaches [_poll], which starts a process whose
    lines come back to [_process_output].  The methods below take the
    poll loop they call as [poll]; [_process_output] closes the cycle. *)

Definition SFDXJsonPollingTask_poll_action (handler : string -> M unit)
    : M unit :=
  command <- _get_poll_command ;;
  env <- _get_env ;;
  Command_run_command handler _handle_returncode env command.

Definition SFDXJsonPollingTask_process_data (poll : M unit) : M unit :=
  j <- get_job_id ;;
  if truthy j then SFDXJsonPollingTask_process_poll_data
  else
    data <- return_values_data ;;
    id <- py_getitem data "id" ;;
    modify (set_job_id id) ;;;
    poll.

(** [self._process_data()]. *)
Definition _process_data_with (poll : M unit) : M unit :=
  dispatch (fun c =>
    match c with
    | SFDXJsonTask => SFDXJsonTask_process_data
    | SFDXJsonPollingTask | SFDXDeploy =>
        SFDXJsonPollingTask_process_data poll
    | SFDXConvertFrom => SFDXConvertFrom_process_data
    | SFDXConvertTo => SFDXConvertTo_process_data
    | SFDXBaseTask | SFDXOrgTask => raise (AttributeError "_process_data")
    end).

Definition SFDXJsonTask_process_output_with (poll : M unit)
    (line : string) : M unit :=
  match json_loads line with
  | Some v => modify (set_return_value "data" v)
  | None => modify (add_log (Error_parse line)) ;;; raise ValueError
  end ;;;
  _process_data_with poll.

Definition SFDXJsonPollingTask_process_output_with (poll : M unit)
    (line : string) : M unit :=
  let started := false in
  started <- gets (fun s => if hasattr_job_id s then true else started) ;;
  SFDXJsonTask_process_output_with poll line ;;;
  if negb started then _process_data_with poll
  else SFDXJsonPollingTask_process_poll_data.

(** [self._process_output(line)]. *)
Definition _process_output_with (poll : M unit) (line : string) : M unit :=
  dispatch (fun c =>
    match c with
    | SFDXBaseTask | SFDXOrgTask => Command_process_output line
    | SFDXJsonTask | SFDXConvertFrom | SFDXConvertTo =>
        SFDXJsonTask_process_output_with poll line
    | SFDXJsonPollingTask | SFDXDeploy =>
        SFDXJsonPollingTask_process_output_with poll line
    end).

(** [fuel] bounds both the depth at which poll processes nest and the
    rounds of each poll loop; with none left [_poll] does not return. *)
Fixpoint _process_output (fuel : nat) (line : string) : M unit :=
  _process_output_with
    match fuel with
    | O => out_of_fuel
    | S fuel' =>
        BaseTask_poll
          (SFDXJsonPollingTask_poll_action (_process_output fuel')) fuel
    end
    line.

(** [self._poll()]. *)
Definition _poll (fuel : nat) : M unit :=
  match fuel with
  | O => out_of_fuel
  | S fuel' =>
      BaseTask_poll
        (SFDXJsonPollingTask_poll_action (_process_output fuel')) fuel
  end.

Definition _process_data (fuel : nat) : M unit :=
  _process_data_with (_poll fuel).

Definition SFDXJsonTask_process_output (fuel : nat) (line : string)
    : M unit :=
  SFDXJsonTask_process_output_with (_poll fuel) line.

Definition SFDXJsonPollingTask_process_output (fuel : nat) (line : string)
    : M unit :=
  SFDXJsonPollingTask_process_output_with (_poll fuel) line.

Definition _poll_action (fuel : nat) : M unit :=
  SFDXJsonPollingTask_poll_action (_process_output fuel).

(** Modelled from the spec: [Command._run_task] is not in sfdx.py.  The
    task runs the command of its options in its environment. *)
Definition Command_run_task (fuel : nat) : M unit :=
  env <- _get_env ;;
  command <- options_getitem "command" ;;
  Command_run_command (_process_output fuel) _handle_returncode
    env (Some command).



(** *** The polling handler without its [if not started] branch *)

Definition SFDXJsonPollingTask_process_output_started_with (poll : M unit)
    (line : string) : M unit :=
  SFDXJsonTask_process_output_with poll line ;;;
  SFDXJsonPollingTask_process_poll_data.

Definition _process_output_started_with (poll : M unit) (line : string)
    : M unit :=
  dispatch (fun c =>
    match c with
    | SFDXBaseTask | SFDXOrgTask => Command_process_output line
    | SFDXJsonTask | SFDXConvertFrom | SFDXConvertTo =>
        SFDXJsonTask_process_output_with poll line
    | SFDXJsonPollingTask | SFDXDeploy =>
        SFDXJsonPollingTask_process_output_started_with poll line
    end).

Fixpoint _process_output_started (fuel : nat) (line : string) : M unit :=
  _process_output_started_with
    match fuel with
    | O => out_of_fuel
    | S fuel' =>
        BaseTask_poll
          (SFDXJsonPollingTask_poll_action (_process_output_started fuel'))
          fuel
    end
    line.

(** *** Relations between the task before and after a method *)

(** The class, the completion flag and the existence of [job_id] are as
    before. *)
Definition unchanged (s s' : task) : Prop :=
  cls s' = cls s
  /\ poll_complete s' = poll_complete s
  /\ (hasattr_job_id s = true -> hasattr_job_id s' = true).

Definition stable {A} (m : M A) : Prop :=
  forall s, is_json_task (cls s) = true -> unchanged s (snd (m s)).

(** A polling task after [_init_task]. *)
Definition initialised (s : task) : Prop :=
  is_polling (cls s) = true /\ hasattr_job_id s = true.

Definition agree {A} (m1 m2 : M A) : Prop :=
  forall s, initialised s -> m1 s = m2 s.

(** Number of calls of [_process_poll_data] that reached its first line,
    read off the log. *)
Definition poll_data_calls (s : task) : nat :=
  length
    (List.filter
       (fun r => match r with Info_poll_data _ => true | _ => false end)
       (logger s)).


(** *** The other command builders and [_init_options] *)

(** [Command._init_options] of [cumulusci/tasks/command.py], called with
    the keyword arguments of the task. *)
Variable Command_init_options : gmap string string -> M unit.

(** [self.options[k] = v]. *)
Definition set_option (k v : string) (s : task) : task :=
  Task (cls s) (<[k := v]> (options s)) (org_config s) (return_values s)
       (job_id s) (poll_complete s) (logger s) (spawned s).

Definition SFDXConvertFrom_get_command : M string :=
  command <- gets SFDXBaseTask_get_command ;;
  src <- options_getitem "src" ;;
  dest <- options_getitem "dest" ;;
  let command := command ++ " -r " ++ src ++ " -d " ++ dest ++ " --json" in
  ret command.

Definition SFDXConvertTo_get_command : M string :=
  command <- gets SFDXBaseTask_get_command ;;
  src <- options_getitem "src" ;;
  dest <- options_getitem "dest" ;;
  let command := command ++ " -r " ++ src ++ " -d " ++ dest ++ " --json" in
  ret command.

(** [hasattr(self, 'options')]: the task carries its options, and where
    SFDXDeploy tests for them the inherited [_get_command], called just
    before, has already read [self.options]. *)
Definition hasattr_options (_ : task) : bool := true.

Definition SFDXDeploy_get_command (s : task) : string :=
  let command := SFDXOrgTask_get_command s in
  if hasattr_options s
  then command ++ " -d " ++ default "NO_PATH_PROVIDED" (options s !! "path")
  else command.

(** [self._get_command()]. *)
Definition _get_command : M string :=
  dispatch (fun c =>
    match c with
    | SFDXBaseTask | SFDXJsonTask | SFDXJsonPollingTask =>
        gets SFDXBaseTask_get_command
    | SFDXOrgTask => gets SFDXOrgTask_get_command
    | SFDXConvertFrom => SFDXConvertFrom_get_command
    | SFDXConvertTo => SFDXConvertTo_get_command
    | SFDXDeploy => gets SFDXDeploy_get_command
    end).

Definition SFDXBaseTask_init_options (kwargs : gmap string string)
    : M unit :=
  Command_init_options kwargs ;;;
  command <- _get_command ;;
  modify (set_option "command" command).

(** *** What handling output leaves as it was *)

(** The options and the org are the same, and a job identifier that was
    set is the same. *)
Definition frozen (s s' : task) : Prop :=
  options s' = options s
  /\ org_config s' = org_config s
  /\ (forall j, job_id s = Some j -> truthy j = true -> job_id s' = Some j).

(** No entry of [return_values] but ['data'] is written, and ['data'] is
    not removed. *)
Definition writes_only_data (s s' : task) : Prop :=
  (forall k, k <> "data" -> return_values s' !! k = return_values s !! k)
  /\ (is_Some (return_values s !! "data") ->
      is_Some (return_values s' !! "data")).

(** [m], run on a JSON task, relates the task before and after by [R]. *)
Definition keeps (R : task -> task -> Prop) {A} (m : M A) : Prop :=
  forall s, is_json_task (cls s) = true -> R s (snd (m s)).

(** [json.loads] on each line of a list; [None] when one does not
    decode. *)
Fixpoint decode_all (lines : list string) : option (list json) :=
  match lines with
  | [] => Some []
  | line :: rest =>
      match json_loads line, decode_all rest with
      | Some v, Some vs => Some (v :: vs)
      | _, _ => None
      end
  end.

(** The record has no ['status'] or one that is not [0]. *)
Definition status_not_zero (v : json) : bool :=
  match v with
  | JObject o => negb (py_eq_zero (default JNull (o !! "status")))
  | _ => false
  end.

(** The line makes a polling task start its polls: the task has no job
    identifier yet and the record has an ['id']. *)
Definition starts_polling (s : task) (v : json) : bool :=
  is_polling (cls s)
  && match job_id s with Some j => negb (truthy j) | None => false end
  && match v with
     | JObject o => match o !! "id" with Some _ => true | None => false end
     | _ => false
     end.

(** ** Properties *)

(** *** Strings *)

Lemma prefix_app (p s : string) : String.prefix p (p ++ s) = true.
Proof.
  induction p as [|c p IH]; simpl.
  - now destruct s.
  - destruct (Ascii.ascii_dec c c) as [_|ne]; [exact IH | now destruct ne].
Qed.

Lemma contains_here (needle rest : string) :
  contains needle (needle ++ rest) = true.
Proof.
  pose proof (prefix_app needle rest) as H.
  destruct (needle ++ rest); simpl in *; rewrite H; reflexivity.
Qed.

Lemma contains_app (needle before after : string) :
  contains needle (before ++ needle ++ after) = true.
Proof.
  induction before as [|c before IH].
  - exact (contains_here needle after).
  - change (String c before ++ needle ++ after)
      with (String c (before ++ needle ++ after)).
    simpl. rewrite IH. apply orb_true_r.
Qed.

(** *** Running a method on a task *)

Lemma bind_Return {A B} (m : M A) (k : A -> M B) (s s' : task) (a : A) :
  m s = (Return a, s') -> bind m k s = k a s'.
Proof. intros E. unfold bind. now rewrite E. Qed.

Lemma bind_Raise {A B} (m : M A) (k : A -> M B) (s s' : task) (e : exn) :
  m s = (Raise e, s') -> bind m k s = (Raise e, s').
Proof. intros E. unfold bind. now rewrite E. Qed.

Lemma return_values_data_Some (s : task) (r : json) :
  return_values s !! "data" = Some r -> return_values_data s = (Return r, s).
Proof. intros E. unfold return_values_data. now rewrite E. Qed.

Lemma return_values_data_None (s : task) :
  return_values s !! "data" = None ->
  return_values_data s = (Raise (KeyError "data"), s).
Proof. intros E. unfold return_values_data. now rewrite E. Qed.

(** The call of line 126 passes the record to a method that takes none. *)
Lemma process_poll_data_TypeError (s : task) (r : json) :
  return_values s !! "data" = Some r ->
  SFDXJsonPollingTask_process_poll_data s
  = (Raise TypeError, add_log (Info_poll_data r) s).
Proof.
  intros E.
  unfold SFDXJsonPollingTask_process_poll_data, bind, return_values_data,
    modify.
  cbn. repeat (rewrite E; cbn). reflexivity.
Qed.

Lemma process_poll_data_KeyError (s : task) :
  return_values s !! "data" = None ->
  SFDXJsonPollingTask_process_poll_data s = (Raise (KeyError "data"), s).
Proof.
  intros E.
  unfold SFDXJsonPollingTask_process_poll_data, bind, return_values_data.
  now rewrite E.
Qed.

Lemma process_output_with_malformed (poll : M unit) (line : string)
    (s : task) :
  json_loads line = None ->
  SFDXJsonTask_process_output_with poll line s
  = (Raise ValueError, add_log (Error_parse line) s).
Proof.
  intros E. unfold SFDXJsonTask_process_output_with. now rewrite E.
Qed.

Lemma process_output_with_decoded (poll : M unit) (line : string)
    (v : json) (s : task) :
  json_loads line = Some v ->
  SFDXJsonTask_process_output_with poll line s
  = _process_data_with poll (set_return_value "data" v s).
Proof.
  intros E. unfold SFDXJsonTask_process_output_with. now rewrite E.
Qed.

Lemma process_output_unfold (fuel : nat) (line : string) :
  _process_output fuel line = _process_output_with (_poll fuel) line.
Proof. destruct fuel; reflexivity. Qed.

Lemma process_output_started_unfold (fuel : nat) (line : string) :
  _process_output_started fuel line
  = _process_output_started_with
      match fuel with
      | O => out_of_fuel
      | S fuel' =>
          BaseTask_poll
            (SFDXJsonPollingTask_poll_action (_process_output_started fuel'))
            fuel
      end
      line.
Proof. destruct fuel; reflexivity. Qed.

(** *** What the methods of a JSON task leave as it was *)

Lemma unchanged_refl (s : task) : unchanged s s.
Proof. repeat split; auto. Qed.

Lemma unchanged_trans (s1 s2 s3 : task) :
  unchanged s1 s2 -> unchanged s2 s3 -> unchanged s1 s3.
Proof.
  intros (c1 & p1 & h1) (c2 & p2 & h2). repeat split; try congruence; auto.
Qed.

Lemma stable_ret {A} (a : A) : stable (ret a).
Proof. intros s _. apply unchanged_refl. Qed.

Lemma stable_raise {A} (e : exn) : stable (@raise A e).
Proof. intros s _. apply unchanged_refl. Qed.

Lemma stable_out_of_fuel {A} : stable (@out_of_fuel A).
Proof. intros s _. apply unchanged_refl. Qed.

Lemma stable_gets {A} (f : task -> A) : stable (gets f).
Proof. intros s _. apply unchanged_refl. Qed.

Lemma stable_modify (f : task -> task) :
  (forall s, unchanged s (f s)) -> stable (modify f).
Proof. intros H s _. apply H. Qed.

Lemma stable_bind {A B} (m : M A) (k : A -> M B) :
  stable m -> (forall a, stable (k a)) -> stable (bind m k).
Proof.
  intros Hm Hk s Hc. specialize (Hm s Hc). unfold bind.
  destruct (m s) as [[a|e|] s1]; simpl in *; try exact Hm.
  eapply unchanged_trans; [exact Hm|]. apply Hk.
  destruct Hm as (-> & _). exact Hc.
Qed.

Lemma stable_dispatch {A} (f : task_class -> M A) :
  (forall c, is_json_task c = true -> stable (f c)) -> stable (dispatch f).
Proof. intros H s Hc. exact (H (cls s) Hc s Hc). Qed.

Lemma stable_state_read {A} (m : M A) :
  (forall s, snd (m s) = s) -> stable m.
Proof. intros H s _. rewrite H. apply unchanged_refl. Qed.

Lemma stable_return_values_data : stable return_values_data.
Proof.
  apply stable_state_read. intros s. unfold return_values_data.
  now destruct (return_values s !! "data").
Qed.

Lemma stable_options_getitem (key : string) : stable (options_getitem key).
Proof.
  apply stable_state_read. intros s. unfold options_getitem.
  now destruct (options s !! key).
Qed.

Lemma stable_get_job_id : stable get_job_id.
Proof.
  apply stable_state_read. intros s. unfold get_job_id.
  now destruct (job_id s).
Qed.

Lemma stable_py_getitem (v : json) (key : string) : stable (py_getitem v key).
Proof.
  apply stable_state_read. intros s.
  destruct v; try reflexivity. simpl. now destruct (o !! key).
Qed.

Lemma stable_py_get (v : json) (key : string) (d : json) :
  stable (py_get v key d).
Proof. apply stable_state_read. intros s. now destruct v. Qed.

Lemma unchanged_add_log (r : log_record) (s : task) :
  unchanged s (add_log r s).
Proof. repeat split; auto. Qed.

Lemma unchanged_set_return_value (k : string) (v : json) (s : task) :
  unchanged s (set_return_value k v s).
Proof. repeat split; auto. Qed.

Lemma unchanged_set_job_id (v : json) (s : task) :
  unchanged s (set_job_id v s).
Proof. repeat split; auto. Qed.

Lemma unchanged_add_spawned (c : option string) (e : gmap string string)
    (s : task) :
  unchanged s (add_spawned c e s).
Proof. repeat split; auto. Qed.

Create HintDb stable.
#[local] Hint Resolve stable_ret stable_raise stable_out_of_fuel stable_gets
  stable_modify stable_return_values_data stable_options_getitem
  stable_get_job_id stable_py_getitem stable_py_get unchanged_add_log
  unchanged_set_return_value unchanged_set_job_id unchanged_add_spawned
  : stable.

Ltac stable_steps :=
  repeat first
    [ progress auto with stable
    | apply stable_bind; [|intros ?]
    | apply stable_dispatch; intros [] ?; try discriminate
    | match goal with |- stable (if ?b then _ else _) => destruct b end
    | match goal with |- stable (match ?x with _ => _ end) => destruct x end ].

Lemma stable_process_poll_data : stable SFDXJsonPollingTask_process_poll_data.
Proof.
  intros s _. destruct (return_values s !! "data") as [r|] eqn:E.
  - rewrite (process_poll_data_TypeError s r E). apply unchanged_add_log.
  - rewrite (process_poll_data_KeyError s E). apply unchanged_refl.
Qed.
#[local] Hint Resolve stable_process_poll_data : stable.

Lemma stable_get_env : stable _get_env.
Proof. unfold _get_env, SFDXOrgTask_get_env. stable_steps. Qed.
#[local] Hint Resolve stable_get_env : stable.

Lemma stable_get_poll_command : stable _get_poll_command.
Proof.
  unfold _get_poll_command, SFDXDeploy_get_poll_command,
    SFDXJsonPollingTask_get_poll_command.
  stable_steps.
Qed.
#[local] Hint Resolve stable_get_poll_command : stable.

Lemma stable_handle_returncode (rc : Z) : stable (_handle_returncode rc).
Proof.
  unfold _handle_returncode, SFDXConvertFrom_handle_returncode,
    Command_handle_returncode.
  stable_steps.
Qed.
#[local] Hint Resolve stable_handle_returncode : stable.

Lemma stable_for_each (handler : string -> M unit) (lines : list string) :
  (forall line, stable (handler line)) -> stable (for_each handler lines).
Proof. intros H. induction lines; simpl; stable_steps. Qed.
#[local] Hint Resolve stable_for_each : stable.

Lemma stable_run_command (handler : string -> M unit)
    (env : gmap string string) (command : option string) :
  (forall line, stable (handler line)) ->
  stable (Command_run_command handler _handle_returncode env command).
Proof.
  intros H. unfold Command_run_command. stable_steps.
Qed.
#[local] Hint Resolve stable_run_command : stable.

Lemma stable_poll_action (handler : string -> M unit) :
  (forall line, stable (handler line)) ->
  stable (SFDXJsonPollingTask_poll_action handler).
Proof.
  intros H. unfold SFDXJsonPollingTask_poll_action. stable_steps.
Qed.
#[local] Hint Resolve stable_poll_action : stable.

Lemma stable_BaseTask_poll (action : M unit) (n : nat) :
  stable action -> stable (BaseTask_poll action n).
Proof. intros H. induction n; simpl; stable_steps. Qed.
#[local] Hint Resolve stable_BaseTask_poll : stable.

Lemma stable_process_data_with (poll : M unit) :
  stable poll -> stable (_process_data_with poll).
Proof.
  intros H.
  unfold _process_data_with, SFDXJsonTask_process_data,
    SFDXJsonPollingTask_process_data, SFDXConvertFrom_process_data,
    SFDXConvertTo_process_data.
  stable_steps.
Qed.
#[local] Hint Resolve stable_process_data_with : stable.

Lemma stable_json_process_output_with (poll : M unit) (line : string) :
  stable poll -> stable (SFDXJsonTask_process_output_with poll line).
Proof.
  intros H. unfold SFDXJsonTask_process_output_with. stable_steps.
Qed.
#[local] Hint Resolve stable_json_process_output_with : stable.

Lemma stable_process_output_with (poll : M unit) (line : string) :
  stable poll -> stable (_process_output_with poll line).
Proof.
  intros H.
  unfold _process_output_with, SFDXJsonPollingTask_process_output_with.
  stable_steps.
Qed.
#[local] Hint Resolve stable_process_output_with : stable.

Lemma stable_process_output (fuel : nat) (line : string) :
  stable (_process_output fuel line).
Proof.
  revert line. induction fuel as [|fuel IH]; intros line.
  - apply stable_process_output_with, stable_out_of_fuel.
  - apply stable_process_output_with, stable_BaseTask_poll,
      stable_poll_action, IH.
Qed.
#[local] Hint Resolve stable_process_output : stable.

Lemma stable_poll (fuel : nat) : stable (_poll fuel).
Proof.
  destruct fuel; [apply stable_out_of_fuel|].
  apply stable_BaseTask_poll, stable_poll_action, stable_process_output.
Qed.
#[local] Hint Resolve stable_poll : stable.

Lemma stable_run_task (fuel : nat) : stable (Command_run_task fuel).
Proof.
  unfold Command_run_task. stable_steps.
Qed.

(** *** Sessions: command line and environment *)

Lemma append_empty_r (s : string) : s ++ "" = s.
Proof.
  induction s as [|c s IH]; [reflexivity|].
  change (String c s ++ "") with (String c (s ++ "")). now rewrite IH.
Qed.

Lemma contains_at_end (needle before : string) :
  contains needle (before ++ needle) = true.
Proof.
  rewrite <- (append_empty_r needle) at 2. apply contains_app.
Qed.

Lemma contains_append_r (needle before rest : string) :
  contains needle rest = true -> contains needle (before ++ rest) = true.
Proof.
  intros H. induction before as [|c before IH]; [exact H|].
  change (String c before ++ rest) with (String c (before ++ rest)).
  simpl. rewrite IH. apply orb_true_r.
Qed.

(** C8: for a task bound to a scratch org the command built by
    [SFDXOrgTask._get_command] is the base command followed by
    [-u <username>] and [SFDXOrgTask._get_env] returns the inherited
    environment with no variable added; for any other org the command is
    the base command with nothing added and the environment is the
    inherited one with exactly [SFDX_INSTANCE_URL] (the instance URL) and
    [SFDX_USERNAME] (the access token) set on top of it. *)
Theorem C8_org_session_passing (s : task) (o : org) :
  org_config s = Some o ->
  if scratch o then
    SFDXOrgTask_get_command s
    = SFDXBaseTask_get_command s ++ " -u " ++ username o
    /\ contains (" -u " ++ username o) (SFDXOrgTask_get_command s) = true
    /\ SFDXOrgTask_get_env s = (Return (Command_get_env s), s)
  else
    SFDXOrgTask_get_command s = SFDXBaseTask_get_command s
    /\ SFDXOrgTask_get_env s
       = (Return (<["SFDX_USERNAME" := access_token o]>
                    (<["SFDX_INSTANCE_URL" := instance_url o]>
                       (Command_get_env s))), s).
Proof.
  intros E.
  assert (SFDXOrgTask_get_command s
          = if scratch o
            then SFDXBaseTask_get_command s ++ " -u " ++ username o
            else SFDXBaseTask_get_command s) as C.
  { unfold SFDXOrgTask_get_command. now rewrite E. }
  rewrite C. unfold SFDXOrgTask_get_env, bind, gets. rewrite E.
  destruct (scratch o); repeat split. apply contains_at_end.
Qed.

(** *** Lines that are not JSON *)

(** C4: when the line does not decode, [_process_output] of every JSON
    task raises the decoder's error after logging the line, and
    [return_values] (hence the record stored under ['data']) is what it
    was before the call. *)
Theorem C4_malformed_line_raises (fuel : nat) (line : string) (s : task) :
  is_json_task (cls s) = true ->
  json_loads line = None ->
  _process_output fuel line s
  = (Raise ValueError, add_log (Error_parse line) s)
  /\ return_values (snd (_process_output fuel line s)) = return_values s.
Proof.
  intros Hc E.
  assert (_process_output fuel line s
          = (Raise ValueError, add_log (Error_parse line) s)) as R.
  { rewrite process_output_unfold.
    unfold _process_output_with, dispatch.
    destruct (cls s); try discriminate;
      try (now apply process_output_with_malformed);
      unfold SFDXJsonPollingTask_process_output_with, bind, gets;
      now rewrite (process_output_with_malformed _ _ _ E). }
  rewrite R. split; reflexivity.
Qed.

(** *** A poll record on a task that has its job identifier *)

Lemma polling_line_with_job_id (fuel : nat) (line : string) (v j : json)
    (s : task) :
  is_polling (cls s) = true ->
  json_loads line = Some v ->
  job_id s = Some j ->
  truthy j = true ->
  _process_output fuel line s
  = (Raise TypeError,
     add_log (Info_poll_data v) (set_return_value "data" v s)).
Proof.
  intros Hc E J T.
  assert (SFDXJsonTask_process_output_with (_poll fuel) line s
          = (Raise TypeError,
             add_log (Info_poll_data v) (set_return_value "data" v s)))
    as R.
  { rewrite (process_output_with_decoded _ _ _ _ E).
    unfold _process_data_with, dispatch.
    change (cls (set_return_value "data" v s)) with (cls s).
    assert (SFDXJsonPollingTask_process_data (_poll fuel)
              (set_return_value "data" v s)
            = SFDXJsonPollingTask_process_poll_data
                (set_return_value "data" v s)) as P.
    { unfold SFDXJsonPollingTask_process_data, bind, get_job_id.
      change (job_id (set_return_value "data" v s)) with (job_id s).
      now rewrite J, T. }
    destruct (cls s); try discriminate; rewrite P;
      apply process_poll_data_TypeError, lookup_insert_eq. }
  rewrite process_output_unfold. unfold _process_output_with, dispatch.
  destruct (cls s); try discriminate;
    unfold SFDXJsonPollingTask_process_output_with, bind, gets;
    now rewrite R.
Qed.

(** *** Lines that are JSON *)

Lemma result_task_process_data_keeps_record (poll : M unit) (s : task) :
  is_result_task (cls s) = true ->
  return_values (snd (_process_data_with poll s)) = return_values s.
Proof.
  intros Hc. unfold _process_data_with, dispatch.
  destruct (cls s); try discriminate.
  - unfold SFDXJsonTask_process_data, bind, return_values_data.
    now destruct (return_values s !! "data").
  - unfold SFDXConvertFrom_process_data, bind, return_values_data.
    destruct (return_values s !! "data") as [[]|]; simpl; try reflexivity.
    destruct (py_eq_zero _); [|reflexivity].
    unfold options_getitem.
    destruct (options s !! "src"); [|reflexivity].
    now destruct (options s !! "dest").
  - unfold SFDXConvertTo_process_data, bind, return_values_data.
    destruct (return_values s !! "data") as [[]|]; simpl; try reflexivity.
    destruct (py_eq_zero _); [|reflexivity].
    unfold options_getitem.
    destruct (options s !! "src"); [|reflexivity].
    now destruct (options s !! "dest").
Qed.

(** *** The completion check *)

(** Called with no argument, [_check_poll_done] answers with the ['done']
    field of the last record, and with [True] when there is none. *)
Lemma check_poll_done_reads_done (s : task) (o : gmap string json) :
  return_values s !! "data" = Some (JObject o) ->
  call_self_only SFDXJsonPollingTask_check_poll_done [] s
  = (Return (default (JBool true) (o !! "done")), s).
Proof.
  intros E. unfold call_self_only, SFDXJsonPollingTask_check_poll_done, bind.
  now rewrite (return_values_data_Some s _ E).
Qed.

(** C9: [_process_poll_data], run on a task that holds a parsed record
    (every call site stores one first), logs the record and raises
    [TypeError] at the call of [_check_poll_done]; on no task at all does
    it return, and it never changes [poll_complete]; so no line handled by
    a JSON task and no run of one changes [poll_complete]. *)
Theorem C9_process_poll_data_raises_TypeError (s : task) (r : json) :
  return_values s !! "data" = Some r ->
  SFDXJsonPollingTask_process_poll_data s
  = (Raise TypeError, add_log (Info_poll_data r) s)
  /\ (forall s', exists e s'',
        SFDXJsonPollingTask_process_poll_data s' = (Raise e, s'')
        /\ poll_complete s'' = poll_complete s')
  /\ (forall fuel line s',
        is_json_task (cls s') = true ->
        poll_complete (snd (_process_output fuel line s'))
        = poll_complete s')
  /\ (forall fuel s',
        is_json_task (cls s') = true ->
        poll_complete (snd (Command_run_task fuel s')) = poll_complete s').
Proof.
  intros E. split; [now apply process_poll_data_TypeError|]. split.
  - intros s'. destruct (return_values s' !! "data") as [r'|] eqn:E'.
    + exists TypeError, (add_log (Info_poll_data r') s').
      split; [now apply process_poll_data_TypeError | reflexivity].
    + exists (KeyError "data"), s'.
      split; [now apply process_poll_data_KeyError | reflexivity].
  - split.
    + intros fuel line s' Hc. now apply (stable_process_output fuel line s').
    + intros fuel s' Hc. now apply (stable_run_task fuel s').
Qed.

(** *** The poll command *)

(** C2 as amended: while the job identifier is [None] (or any other false
    value) [SFDXDeploy._get_poll_command] returns [None] and raises
    nothing; [SFDXJsonPollingTask._get_poll_command] raises
    [NotImplementedError] on every task, with or without an identifier. *)
Theorem C2_poll_command_without_job_id (s : task) (j : json) :
  job_id s = Some j ->
  truthy j = false ->
  SFDXDeploy_get_poll_command s = (Return None, s)
  /\ (cls s = SFDXDeploy -> _get_poll_command s = (Return None, s))
  /\ (forall s',
        SFDXJsonPollingTask_get_poll_command s'
        = (Raise NotImplementedError, s')).
Proof.
  intros E F.
  assert (SFDXDeploy_get_poll_command s = (Return None, s)) as R.
  { unfold SFDXDeploy_get_poll_command, bind, get_job_id.
    rewrite E, F. reflexivity. }
  split; [exact R|]. split; [|reflexivity].
  intros Ec. unfold _get_poll_command, dispatch. now rewrite Ec.
Qed.

(** With an identifier the command of SFDXDeploy ends in [-i <id>]. *)
Lemma deploy_poll_command_with_job_id (s : task) (j : json) :
  job_id s = Some j ->
  truthy j = true ->
  SFDXDeploy_get_poll_command s
  = (Return (Some (SFDXOrgTask_get_command s ++ " -i " ++ format_value j)),
     s).
Proof.
  intros E T. unfold SFDXDeploy_get_poll_command, bind, get_job_id, gets.
  rewrite E, T. simpl. now rewrite E.
Qed.

(** *** The first record *)

Lemma first_record_with_id (poll : M unit) (s : task)
    (j id : json) (o : gmap string json) :
  job_id s = Some j ->
  truthy j = false ->
  return_values s !! "data" = Some (JObject o) ->
  o !! "id" = Some id ->
  SFDXJsonPollingTask_process_data poll s = poll (set_job_id id s).
Proof.
  intros E F D I.
  unfold SFDXJsonPollingTask_process_data, bind, get_job_id,
    return_values_data, modify.
  rewrite E, F, D. simpl. rewrite I. reflexivity.
Qed.

(** C6 as amended: while the job identifier is still unset (false), a
    first record that has an ['id'] field gets that field stored as the
    job identifier, whatever its truth value, and the poll loop is
    entered on the task so updated; the completion check is not run on
    that record. *)
Theorem C6_first_record_sets_job_id (poll : M unit) (s : task) (j id : json)
    (o : gmap string json) :
  job_id s = Some j ->
  truthy j = false ->
  return_values s !! "data" = Some (JObject o) ->
  o !! "id" = Some id ->
  SFDXJsonPollingTask_process_data poll s = poll (set_job_id id s)
  /\ (forall fuel,
        is_polling (cls s) = true ->
        _process_data fuel s = _poll fuel (set_job_id id s)).
Proof.
  intros E F D I.
  split; [now apply (first_record_with_id poll s j id o)|].
  intros fuel Hc. unfold _process_data, _process_data_with, dispatch.
  destruct (cls s); try discriminate;
    now apply (first_record_with_id _ s j id o).
Qed.

(** A first record without ['id'] makes [_process_data] raise. *)
Lemma first_record_without_id (poll : M unit) (s : task) (j : json)
    (o : gmap string json) :
  job_id s = Some j ->
  truthy j = false ->
  return_values s !! "data" = Some (JObject o) ->
  o !! "id" = None ->
  SFDXJsonPollingTask_process_data poll s = (Raise (KeyError "id"), s).
Proof.
  intros E F D I.
  unfold SFDXJsonPollingTask_process_data, bind, get_job_id,
    return_values_data.
  rewrite E, F, D. simpl. now rewrite I.
Qed.

(** *** The exit code *)

(** C5 as amended: on a non-zero exit code
    [SFDXConvertFrom._handle_returncode] logs the ['message'] field of the
    last record, when the record has one, and raises [CommandException]
    with that message; on exit code 0 it raises nothing, whatever the
    task holds. *)
Theorem C5_returncode_of_convert_from (rc : Z) (s : task)
    (o : gmap string json) (message : json) :
  rc <> 0%Z ->
  return_values s !! "data" = Some (JObject o) ->
  o !! "message" = Some message ->
  SFDXConvertFrom_handle_returncode rc s
  = (Raise (CommandException (FromRecord message)),
     add_log (Error_message message) s)
  /\ (forall s', SFDXConvertFrom_handle_returncode 0 s' = (Return tt, s')).
Proof.
  intros N D I. split; [|reflexivity].
  unfold SFDXConvertFrom_handle_returncode.
  destruct (Z.eqb_spec rc 0) as [->|_]; [now destruct N|].
  unfold bind, return_values_data, modify. simpl.
  rewrite D. simpl. rewrite I. simpl. rewrite D. simpl. now rewrite I.
Qed.

(** *** The run of a deployment *)

Lemma run_command_started (handler : string -> M unit)
    (handle : Z -> M unit) (env : gmap string string)
    (command : option string) (p : process) (s : task) :
  popen (length (spawned s)) command env = Some p ->
  Command_run_command handler handle env command s
  = (for_each handler (stdout p) ;;; handle (returncode p))
      (add_spawned command env s).
Proof.
  intros E. unfold Command_run_command, bind at 1 2, gets, modify.
  now rewrite E.
Qed.

Lemma get_env_of_org_task (s : task) (o : org) :
  org_config s = Some o ->
  cls s = SFDXDeploy ->
  exists env, _get_env s = (Return env, s).
Proof.
  intros E Ec. unfold _get_env, dispatch. rewrite Ec.
  unfold SFDXOrgTask_get_env, bind, gets. rewrite E.
  destruct (scratch o); simpl; eauto.
Qed.

Lemma polling_first_line (fuel : nat) (line : string) (s : task)
    (j id : json) (o : gmap string json) :
  is_polling (cls s) = true ->
  job_id s = Some j ->
  truthy j = false ->
  json_loads line = Some (JObject o) ->
  o !! "id" = Some id ->
  _process_output fuel line s
  = (_poll fuel ;;; SFDXJsonPollingTask_process_poll_data)
      (set_job_id id (set_return_value "data" (JObject o) s)).
Proof.
  intros Hc J F E I.
  rewrite process_output_unfold. unfold _process_output_with, dispatch.
  assert (SFDXJsonTask_process_output_with (_poll fuel) line s
          = _poll fuel
              (set_job_id id (set_return_value "data" (JObject o) s)))
    as R.
  { rewrite (process_output_with_decoded _ _ _ _ E).
    unfold _process_data_with, dispatch.
    change (cls (set_return_value "data" (JObject o) s)) with (cls s).
    destruct (cls s); try discriminate;
      apply (first_record_with_id _ _ j id o); auto;
      apply lookup_insert_eq. }
  destruct (cls s); try discriminate;
    unfold SFDXJsonPollingTask_process_output_with;
    unfold bind at 1, gets, hasattr_job_id; rewrite J;
    unfold bind; now rewrite R.
Qed.

Lemma deploy_poll_action_started (handler : string -> M unit) (s : task)
    (o : org) (j : json) (p : process) :
  cls s = SFDXDeploy ->
  org_config s = Some o ->
  job_id s = Some j ->
  truthy j = true ->
  (forall c e, popen (length (spawned s)) c e = Some p) ->
  exists env,
    _get_env s = (Return env, s)
    /\ SFDXJsonPollingTask_poll_action handler s
       = (for_each handler (stdout p) ;;; _handle_returncode (returncode p))
           (add_spawned
              (Some (SFDXOrgTask_get_command s ++ " -i " ++ format_value j))
              env s).
Proof.
  intros Ec Eo J T P.
  destruct (get_env_of_org_task s o Eo Ec) as [env Henv].
  exists env. split; [exact Henv|].
  unfold SFDXJsonPollingTask_poll_action.
  erewrite bind_Return.
  2:{ unfold _get_poll_command, dispatch. rewrite Ec.
      exact (deploy_poll_command_with_job_id s j J T). }
  rewrite (bind_Return _ _ _ _ _ Henv).
  now apply run_command_started.
Qed.

(** C1 at the input of the claim: a deployment whose first line decodes
    to a record with id J1 starts one poll, whose command contains J1;
    the first line of that poll, whatever record it decodes to, ends the
    run with [TypeError], so that no second poll is started and
    [poll_complete] is never set. *)
Theorem C1_polling_stops_at_first_poll_record (fuel : nat) (s : task)
    (o : org) (command first_line poll_line : string) (poll_record : json)
    (more : list string) (rc : Z) :
  cls s = SFDXDeploy ->
  org_config s = Some o ->
  options s !! "command" = Some command ->
  job_id s = Some JNull ->
  spawned s = [] ->
  json_loads first_line
  = Some (JObject {[ "id" := JString "J1"; "done" := JBool false ]}) ->
  json_loads poll_line = Some poll_record ->
  (forall c e, popen 0 c e = Some (Process [first_line] 0)) ->
  (forall c e, popen 1 c e = Some (Process (poll_line :: more) rc)) ->
  exists env env' poll_command s',
    Command_run_task (S fuel) s = (Raise TypeError, s')
    /\ spawned s' = [(Some command, env); (Some poll_command, env')]
    /\ contains "J1" poll_command = true
    /\ job_id s' = Some (JString "J1")
    /\ return_values s' !! "data" = Some poll_record
    /\ poll_complete s' = poll_complete s.
Proof.
  intros Ec Eo Ecmd Ej Esp E0 E1 P0 P1.
  destruct (get_env_of_org_task s o Eo Ec) as [env Henv].
  set (r0 := JObject {[ "id" := JString "J1"; "done" := JBool false ]}) in *.
  set (s1 := set_return_value "data" r0 (add_spawned (Some command) env s)).
  set (s2 := set_job_id (JString "J1") s1).
  destruct (get_env_of_org_task s2 o Eo Ec) as [env' Henv'].
  set (pc := SFDXOrgTask_get_command s2 ++ " -i " ++ "J1").
  set (s3 := add_spawned (Some pc) env' s2).
  exists env, env', pc,
    (add_log (Info_poll_data poll_record)
       (set_return_value "data" poll_record s3)).
  split.
  - unfold Command_run_task.
    rewrite (bind_Return _ _ _ _ _ Henv).
    erewrite bind_Return
      by (unfold options_getitem; rewrite Ecmd; reflexivity).
    rewrite (run_command_started _ _ _ _ (Process [first_line] 0))
      by (rewrite Esp; apply P0).
    change (stdout (Process [first_line] 0)) with [first_line].
    assert (_process_output (S fuel) first_line
              (add_spawned (Some command) env s)
            = (Raise TypeError,
               add_log (Info_poll_data poll_record)
                 (set_return_value "data" poll_record s3))) as R.
    { rewrite (polling_first_line _ _ _ JNull (JString "J1")
                 {[ "id" := JString "J1"; "done" := JBool false ]});
        try reflexivity; try assumption.
      2:{ simpl. now rewrite Ec. }
      fold r0. fold s1. fold s2.
      apply bind_Raise. unfold _poll. simpl BaseTask_poll.
      apply bind_Raise.
      destruct (deploy_poll_action_started (_process_output fuel) s2 o
                  (JString "J1") (Process (poll_line :: more) rc))
        as (env2 & Henv2 & ->); try reflexivity; try assumption.
      { simpl. rewrite Esp. apply P1. }
      assert (env2 = env') as -> by congruence.
      fold pc. fold s3. apply bind_Raise. simpl for_each.
      apply bind_Raise.
      apply (polling_line_with_job_id _ _ _ (JString "J1"));
        try reflexivity; try assumption.
      simpl. now rewrite Ec. }
    apply bind_Raise. simpl for_each. now apply bind_Raise.
  - subst pc s3 s2 s1. repeat split.
    + simpl. now rewrite Esp.
    + now apply contains_append_r.
    + apply lookup_insert_eq.
Qed.

(** *** The [started] flag *)

Lemma initialised_is_json_task (s : task) :
  initialised s -> is_json_task (cls s) = true.
Proof.
  intros [Hc _]. unfold is_json_task. rewrite Hc. apply orb_true_r.
Qed.

Lemma initialised_after {A} (m : M A) (s : task) :
  stable m -> initialised s -> initialised (snd (m s)).
Proof.
  intros Hm Hi. destruct (Hm s (initialised_is_json_task s Hi)) as (c & _ & h).
  destruct Hi as [Hc Hj]. split; [now rewrite c | auto].
Qed.

Lemma agree_refl {A} (m : M A) : agree m m.
Proof. intros s _. reflexivity. Qed.

Lemma agree_bind {A B} (m1 m2 : M A) (k1 k2 : A -> M B) :
  stable m1 ->
  agree m1 m2 ->
  (forall a, agree (k1 a) (k2 a)) ->
  agree (bind m1 k1) (bind m2 k2).
Proof.
  intros Hs Hm Hk s Hi. unfold bind. rewrite <- (Hm s Hi).
  pose proof (initialised_after m1 s Hs Hi) as Hi'.
  destruct (m1 s) as [[a|e|] s1]; try reflexivity. now apply Hk.
Qed.

Lemma agree_for_each (h1 h2 : string -> M unit) (lines : list string) :
  (forall line, stable (h1 line)) ->
  (forall line, agree (h1 line) (h2 line)) ->
  agree (for_each h1 lines) (for_each h2 lines).
Proof.
  intros Hs Ha. induction lines as [|line lines IH]; simpl.
  - apply agree_refl.
  - apply agree_bind; auto.
Qed.

Lemma agree_run_command (h1 h2 : string -> M unit)
    (env : gmap string string) (command : option string) :
  (forall line, stable (h1 line)) ->
  (forall line, agree (h1 line) (h2 line)) ->
  agree (Command_run_command h1 _handle_returncode env command)
        (Command_run_command h2 _handle_returncode env command).
Proof.
  intros Hs Ha. unfold Command_run_command.
  apply agree_bind; [auto with stable | apply agree_refl | intros n].
  apply agree_bind; [auto with stable | apply agree_refl | intros _].
  destruct (popen n command env); [|apply agree_refl].
  apply agree_bind; [auto with stable | | intros; apply agree_refl].
  now apply agree_for_each.
Qed.

Lemma agree_poll_action (h1 h2 : string -> M unit) :
  (forall line, stable (h1 line)) ->
  (forall line, agree (h1 line) (h2 line)) ->
  agree (SFDXJsonPollingTask_poll_action h1)
        (SFDXJsonPollingTask_poll_action h2).
Proof.
  intros Hs Ha. unfold SFDXJsonPollingTask_poll_action.
  apply agree_bind; [auto with stable | apply agree_refl | intros c].
  apply agree_bind; [auto with stable | apply agree_refl | intros e].
  now apply agree_run_command.
Qed.

Lemma agree_BaseTask_poll (a1 a2 : M unit) (n : nat) :
  stable a1 -> agree a1 a2 ->
  agree (BaseTask_poll a1 n) (BaseTask_poll a2 n).
Proof.
  intros Hs Ha. induction n as [|n IH]; simpl; [apply agree_refl|].
  apply agree_bind; [exact Hs | exact Ha | intros _].
  apply agree_bind; [auto with stable | apply agree_refl | intros b].
  destruct b; [apply agree_refl | exact IH].
Qed.

Lemma agree_process_data_with (p1 p2 : M unit) :
  agree p1 p2 -> agree (_process_data_with p1) (_process_data_with p2).
Proof.
  intros Hp s Hi. unfold _process_data_with, dispatch.
  destruct (cls s); try reflexivity; revert s Hi;
    change (agree (SFDXJsonPollingTask_process_data p1)
                  (SFDXJsonPollingTask_process_data p2));
    unfold SFDXJsonPollingTask_process_data;
    (apply agree_bind; [auto with stable | apply agree_refl | intros j]);
    (destruct (truthy j); [apply agree_refl|]);
    (apply agree_bind; [auto with stable | apply agree_refl | intros d]);
    (apply agree_bind; [auto with stable | apply agree_refl | intros i]);
    (apply agree_bind; [auto with stable | apply agree_refl | intros _]);
    exact Hp.
Qed.

Lemma agree_json_process_output_with (p1 p2 : M unit) (line : string) :
  agree p1 p2 ->
  agree (SFDXJsonTask_process_output_with p1 line)
        (SFDXJsonTask_process_output_with p2 line).
Proof.
  intros Hp. unfold SFDXJsonTask_process_output_with.
  apply agree_bind; [|apply agree_refl|intros _].
  - destruct (json_loads line); stable_steps.
  - now apply agree_process_data_with.
Qed.

(** With [job_id] present the handler is the inherited one followed by
    [_process_poll_data]. *)
Lemma polling_process_output_started (poll : M unit) (line : string)
    (s : task) :
  hasattr_job_id s = true ->
  SFDXJsonPollingTask_process_output_with poll line s
  = SFDXJsonPollingTask_process_output_started_with poll line s.
Proof.
  intros H.
  unfold SFDXJsonPollingTask_process_output_with,
    SFDXJsonPollingTask_process_output_started_with.
  unfold bind at 1, gets. now rewrite H.
Qed.

Lemma agree_process_output_with (p1 p2 : M unit) (line : string) :
  stable p1 -> agree p1 p2 ->
  agree (_process_output_with p1 line) (_process_output_started_with p2 line).
Proof.
  intros Hs Hp s Hi.
  assert (agree (SFDXJsonPollingTask_process_output_started_with p1 line)
                (SFDXJsonPollingTask_process_output_started_with p2 line))
    as A.
  { unfold SFDXJsonPollingTask_process_output_started_with.
    apply agree_bind; [auto with stable | | intros; apply agree_refl].
    now apply agree_json_process_output_with. }
  pose proof Hi as [Hc Hj].
  unfold _process_output_with, _process_output_started_with, dispatch.
  destruct (cls s); try discriminate;
    rewrite (polling_process_output_started p1 line s Hj); now apply A.
Qed.

Lemma process_output_agrees_with_started (fuel : nat) (line : string) :
  agree (_process_output fuel line) (_process_output_started fuel line).
Proof.
  revert line. induction fuel as [|fuel IH]; intros line.
  - apply agree_process_output_with; [auto with stable | apply agree_refl].
  - apply agree_process_output_with.
    + apply stable_BaseTask_poll, stable_poll_action, stable_process_output.
    + apply agree_BaseTask_poll.
      * apply stable_poll_action, stable_process_output.
      * apply agree_poll_action; [apply stable_process_output | exact IH].
Qed.

(** C10 as amended: [_init_task] creates the attribute [job_id]; on a
    polling task that has it, it is still there after any line is handled
    and after any run, [started] is true in [_process_output], which
    therefore is the inherited handler followed, when that one returns, by
    [_process_poll_data]; the [if not started] branch is taken for no line
    of the run, nested polls included. *)
Theorem C10_started_is_always_true (fuel : nat) (line : string) (s : task) :
  is_polling (cls s) = true ->
  hasattr_job_id s = true ->
  hasattr_job_id (snd (_process_output fuel line s)) = true
  /\ hasattr_job_id (snd (Command_run_task fuel s)) = true
  /\ SFDXJsonPollingTask_process_output fuel line s
     = (SFDXJsonTask_process_output fuel line ;;;
        SFDXJsonPollingTask_process_poll_data) s
  /\ _process_output fuel line s = _process_output_started fuel line s
  /\ (forall s0,
        hasattr_job_id (snd (SFDXJsonPollingTask_init_task s0)) = true
        /\ cls (snd (SFDXJsonPollingTask_init_task s0)) = cls s0).
Proof.
  intros Hc Hj.
  assert (initialised s) as Hi by (split; assumption).
  repeat split.
  - now apply (initialised_after _ s (stable_process_output fuel line)).
  - now apply (initialised_after _ s (stable_run_task fuel)).
  - now apply polling_process_output_started.
  - now apply process_output_agrees_with_started.
Qed.

(** *** Relations kept by everything a line can reach *)

Section Keeps.

Variable R : task -> task -> Prop.
Hypothesis R_refl : forall s, R s s.
Hypothesis R_trans : forall s1 s2 s3, R s1 s2 -> R s2 s3 -> R s1 s3.
Hypothesis R_add_log : forall r s, R s (add_log r s).
Hypothesis R_set_return_value : forall v s, R s (set_return_value "data" v s).
Hypothesis R_add_spawned : forall c e s, R s (add_spawned c e s).
Hypothesis R_first_job_id :
  forall s j id,
    job_id s = Some j -> truthy j = false -> R s (set_job_id id s).

Lemma keeps_read {A} (m : M A) : (forall s, snd (m s) = s) -> keeps R m.
Proof. intros H s _. rewrite H. apply R_refl. Qed.

Lemma keeps_ret {A} (a : A) : keeps R (ret a).
Proof. now apply keeps_read. Qed.

Lemma keeps_raise {A} (e : exn) : keeps R (@raise A e).
Proof. now apply keeps_read. Qed.

Lemma keeps_out_of_fuel {A} : keeps R (@out_of_fuel A).
Proof. now apply keeps_read. Qed.

Lemma keeps_gets {A} (f : task -> A) : keeps R (gets f).
Proof. now apply keeps_read. Qed.

Lemma keeps_modify (f : task -> task) :
  (forall s, R s (f s)) -> keeps R (modify f).
Proof. intros H s _. apply H. Qed.

Lemma keeps_bind {A B} (m : M A) (k : A -> M B) :
  stable m -> keeps R m -> (forall a, keeps R (k a)) -> keeps R (bind m k).
Proof.
  intros Hs Hm Hk s Hc. specialize (Hm s Hc).
  destruct (Hs s Hc) as (Ec & _). unfold bind.
  destruct (m s) as [[a|e|] s1]; simpl in *; try exact Hm.
  eapply R_trans; [exact Hm|]. apply Hk. now rewrite Ec.
Qed.

Lemma keeps_dispatch {A} (f : task_class -> M A) :
  (forall c, is_json_task c = true -> keeps R (f c)) ->
  keeps R (dispatch f).
Proof. intros H s Hc. exact (H (cls s) Hc s Hc). Qed.

Lemma keeps_return_values_data : keeps R return_values_data.
Proof.
  apply keeps_read. intros s. unfold return_values_data.
  now destruct (return_values s !! "data").
Qed.

Lemma keeps_options_getitem (key : string) : keeps R (options_getitem key).
Proof.
  apply keeps_read. intros s. unfold options_getitem.
  now destruct (options s !! key).
Qed.

Lemma keeps_get_job_id : keeps R get_job_id.
Proof.
  apply keeps_read. intros s. unfold get_job_id. now destruct (job_id s).
Qed.

Lemma keeps_py_getitem (v : json) (key : string) : keeps R (py_getitem v key).
Proof.
  apply keeps_read. intros s. destruct v; try reflexivity.
  simpl. now destruct (o !! key).
Qed.

Lemma keeps_py_get (v : json) (key : string) (d : json) :
  keeps R (py_get v key d).
Proof. apply keeps_read. intros s. now destruct v. Qed.

Create HintDb keeps.
#[local] Hint Resolve keeps_ret keeps_raise keeps_out_of_fuel keeps_gets
  keeps_modify keeps_return_values_data keeps_options_getitem
  keeps_get_job_id keeps_py_getitem keeps_py_get R_add_log
  R_set_return_value R_add_spawned : keeps.

Ltac keeps_steps :=
  repeat first
    [ progress auto with keeps
    | apply keeps_bind; [solve [auto 6 with stable] | | intros ?]
    | apply keeps_dispatch; intros [] ?; try discriminate
    | match goal with |- keeps _ (if ?b then _ else _) => destruct b end
    | match goal with |- keeps _ (match ?x with _ => _ end) => destruct x end ].

Lemma keeps_process_poll_data : keeps R SFDXJsonPollingTask_process_poll_data.
Proof.
  intros s _. destruct (return_values s !! "data") as [r|] eqn:E.
  - rewrite (process_poll_data_TypeError s r E). apply R_add_log.
  - rewrite (process_poll_data_KeyError s E). apply R_refl.
Qed.
#[local] Hint Resolve keeps_process_poll_data : keeps.

Lemma keeps_get_env : keeps R _get_env.
Proof. unfold _get_env, SFDXOrgTask_get_env. keeps_steps. Qed.
#[local] Hint Resolve keeps_get_env : keeps.

Lemma keeps_get_poll_command : keeps R _get_poll_command.
Proof.
  unfold _get_poll_command, SFDXDeploy_get_poll_command,
    SFDXJsonPollingTask_get_poll_command.
  keeps_steps.
Qed.
#[local] Hint Resolve keeps_get_poll_command : keeps.

Lemma keeps_handle_returncode (rc : Z) : keeps R (_handle_returncode rc).
Proof.
  unfold _handle_returncode, SFDXConvertFrom_handle_returncode,
    Command_handle_returncode.
  keeps_steps.
Qed.
#[local] Hint Resolve keeps_handle_returncode : keeps.

Lemma keeps_for_each (handler : string -> M unit) (lines : list string) :
  (forall line, stable (handler line)) ->
  (forall line, keeps R (handler line)) ->
  keeps R (for_each handler lines).
Proof. intros Hs H. induction lines; simpl; keeps_steps. Qed.
#[local] Hint Resolve keeps_for_each : keeps.

Lemma keeps_run_command (handler : string -> M unit)
    (env : gmap string string) (command : option string) :
  (forall line, stable (handler line)) ->
  (forall line, keeps R (handler line)) ->
  keeps R (Command_run_command handler _handle_returncode env command).
Proof. intros Hs H. unfold Command_run_command. keeps_steps. Qed.
#[local] Hint Resolve keeps_run_command : keeps.

Lemma keeps_poll_action (handler : string -> M unit) :
  (forall line, stable (handler line)) ->
  (forall line, keeps R (handler line)) ->
  keeps R (SFDXJsonPollingTask_poll_action handler).
Proof. intros Hs H. unfold SFDXJsonPollingTask_poll_action. keeps_steps. Qed.
#[local] Hint Resolve keeps_poll_action : keeps.

Lemma keeps_BaseTask_poll (action : M unit) (n : nat) :
  stable action -> keeps R action -> keeps R (BaseTask_poll action n).
Proof. intros Hs H. induction n; simpl; keeps_steps. Qed.
#[local] Hint Resolve keeps_BaseTask_poll : keeps.

(** The identifier is assigned only where none was set. *)
Lemma keeps_polling_process_data (poll : M unit) :
  stable poll -> keeps R poll ->
  keeps R (SFDXJsonPollingTask_process_data poll).
Proof.
  intros Hs Hp s Hc. unfold SFDXJsonPollingTask_process_data.
  unfold bind at 1, get_job_id.
  destruct (job_id s) as [j|] eqn:J; [|apply R_refl].
  destruct (truthy j) eqn:T; [now apply keeps_process_poll_data|].
  unfold bind at 1, return_values_data.
  destruct (return_values s !! "data") as [d|]; [|apply R_refl].
  unfold bind at 1.
  pose proof (keeps_py_getitem d "id" s Hc) as G.
  assert (snd (py_getitem d "id" s) = s) as Es.
  { destruct d; try reflexivity. simpl. now destruct (o !! "id"). }
  destruct (py_getitem d "id" s) as [[id|e|] s1]; simpl in Es; subst s1;
    try apply R_refl.
  unfold bind, modify.
  eapply R_trans; [exact (R_first_job_id s j id J T)|].
  apply Hp. exact Hc.
Qed.
#[local] Hint Resolve keeps_polling_process_data : keeps.

Lemma keeps_process_data_with (poll : M unit) :
  stable poll -> keeps R poll -> keeps R (_process_data_with poll).
Proof.
  intros Hs H.
  unfold _process_data_with, SFDXJsonTask_process_data,
    SFDXConvertFrom_process_data, SFDXConvertTo_process_data.
  keeps_steps.
Qed.
#[local] Hint Resolve keeps_process_data_with : keeps.

Lemma keeps_json_process_output_with (poll : M unit) (line : string) :
  stable poll -> keeps R poll ->
  keeps R (SFDXJsonTask_process_output_with poll line).
Proof.
  intros Hs H. unfold SFDXJsonTask_process_output_with.
  apply keeps_bind; [|destruct (json_loads line)|intros _]; keeps_steps.
  destruct (json_loads line); stable_steps.
Qed.
#[local] Hint Resolve keeps_json_process_output_with : keeps.

Lemma keeps_process_output_with (poll : M unit) (line : string) :
  stable poll -> keeps R poll -> keeps R (_process_output_with poll line).
Proof.
  intros Hs H.
  unfold _process_output_with, SFDXJsonPollingTask_process_output_with.
  keeps_steps.
Qed.

Lemma keeps_process_output (fuel : nat) (line : string) :
  keeps R (_process_output fuel line).
Proof.
  revert line. induction fuel as [|fuel IH]; intros line.
  - apply keeps_process_output_with; [auto with stable | apply keeps_out_of_fuel].
  - apply keeps_process_output_with.
    + apply stable_BaseTask_poll, stable_poll_action, stable_process_output.
    + apply keeps_BaseTask_poll.
      * apply stable_poll_action, stable_process_output.
      * apply keeps_poll_action; [apply stable_process_output | exact IH].
Qed.

Lemma keeps_run_task (fuel : nat) : keeps R (Command_run_task fuel).
Proof.
  unfold Command_run_task.
  apply keeps_bind; [auto with stable | apply keeps_get_env | intros env].
  apply keeps_bind;
    [auto with stable | apply keeps_options_getitem | intros c].
  apply keeps_run_command;
    [apply stable_process_output | apply keeps_process_output].
Qed.

End Keeps.

(** *** Options, org and job identifier during a run *)

Lemma frozen_refl (s : task) : frozen s s.
Proof. repeat split; auto. Qed.

Lemma frozen_trans (s1 s2 s3 : task) :
  frozen s1 s2 -> frozen s2 s3 -> frozen s1 s3.
Proof.
  intros (o1 & c1 & j1) (o2 & c2 & j2). repeat split; try congruence.
  intros j J T. apply j2; auto.
Qed.

Lemma frozen_first_job_id (s : task) (j id : json) :
  job_id s = Some j -> truthy j = false -> frozen s (set_job_id id s).
Proof.
  intros J F. repeat split. intros j' J' T. congruence.
Qed.

Lemma frozen_add_log (r : log_record) (s : task) : frozen s (add_log r s).
Proof. repeat split; auto. Qed.

Lemma frozen_set_data (v : json) (s : task) :
  frozen s (set_return_value "data" v s).
Proof. repeat split; auto. Qed.

Lemma frozen_add_spawned (c : option string) (e : gmap string string)
    (s : task) :
  frozen s (add_spawned c e s).
Proof. repeat split; auto. Qed.

(** X1: whatever line a JSON task handles and whatever its run does, the
    options and the org are afterwards what they were, and a job
    identifier that was set (true) is still the same. *)
Theorem options_org_and_job_id_are_frozen (fuel : nat) (line : string)
    (s : task) :
  is_json_task (cls s) = true ->
  frozen s (snd (_process_output fuel line s))
  /\ frozen s (snd (Command_run_task fuel s)).
Proof.
  intros Hc. split.
  - exact (keeps_process_output frozen frozen_refl frozen_trans
             frozen_add_log frozen_set_data frozen_add_spawned
             frozen_first_job_id fuel line s Hc).
  - exact (keeps_run_task frozen frozen_refl frozen_trans
             frozen_add_log frozen_set_data frozen_add_spawned
             frozen_first_job_id fuel s Hc).
Qed.

Lemma org_command_of_frozen (s s' : task) :
  cls s' = cls s -> frozen s s' ->
  SFDXOrgTask_get_command s' = SFDXOrgTask_get_command s.
Proof.
  intros Ec (Eo & Eg & _).
  unfold SFDXOrgTask_get_command, SFDXBaseTask_get_command.
  now rewrite Ec, Eo, Eg.
Qed.

(** X2: once a deployment has its job identifier, the poll command it
    builds after handling any further line is the one it built before:
    the org command followed by [-i <id>]. *)
Theorem poll_command_is_the_same_after_any_line (fuel : nat) (line : string)
    (s : task) (j : json) :
  cls s = SFDXDeploy ->
  job_id s = Some j ->
  truthy j = true ->
  fst (_get_poll_command (snd (_process_output fuel line s)))
  = fst (_get_poll_command s)
  /\ fst (_get_poll_command s)
     = Return (Some (SFDXOrgTask_get_command s ++ " -i " ++ format_value j)).
Proof.
  intros Ec J T.
  assert (is_json_task (cls s) = true) as Hc by now rewrite Ec.
  pose proof (keeps_process_output frozen frozen_refl frozen_trans
                frozen_add_log frozen_set_data frozen_add_spawned
                frozen_first_job_id fuel line s Hc) as F.
  destruct (stable_process_output fuel line s Hc) as (Ec' & _).
  set (s' := snd (_process_output fuel line s)) in *.
  assert (job_id s' = Some j) as J' by (destruct F as (_ & _ & H); auto).
  unfold _get_poll_command, dispatch. rewrite Ec', Ec.
  rewrite (deploy_poll_command_with_job_id s' j J' T).
  rewrite (deploy_poll_command_with_job_id s j J T). simpl.
  rewrite (org_command_of_frozen s s'); auto.
Qed.

Lemma writes_only_data_refl (s : task) : writes_only_data s s.
Proof. split; auto. Qed.

Lemma writes_only_data_trans (s1 s2 s3 : task) :
  writes_only_data s1 s2 -> writes_only_data s2 s3 ->
  writes_only_data s1 s3.
Proof.
  intros (k1 & d1) (k2 & d2). split; [|auto].
  intros k Hk. now rewrite k2, k1.
Qed.

Lemma writes_only_data_set_data (v : json) (s : task) :
  writes_only_data s (set_return_value "data" v s).
Proof.
  split; simpl.
  - intros k Hk. now apply lookup_insert_ne.
  - intros _. rewrite lookup_insert_eq. now eexists.
Qed.

(** X3: a JSON task writes no entry of [return_values] other than
    ['data'], and never removes the record stored under ['data'],
    whatever line it handles and whatever its run does. *)
Theorem return_values_only_data_is_written (fuel : nat) (line : string)
    (s : task) :
  is_json_task (cls s) = true ->
  writes_only_data s (snd (_process_output fuel line s))
  /\ writes_only_data s (snd (Command_run_task fuel s)).
Proof.
  intros Hc.
  assert (forall r t, writes_only_data t (add_log r t)) as L
    by (intros; split; auto).
  assert (forall c e t, writes_only_data t (add_spawned c e t)) as P
    by (intros; split; auto).
  assert (forall t j id, job_id t = Some j -> truthy j = false ->
                         writes_only_data t (set_job_id id t)) as J
    by (intros; split; auto).
  split.
  - exact (keeps_process_output writes_only_data writes_only_data_refl
             writes_only_data_trans L writes_only_data_set_data P J
             fuel line s Hc).
  - exact (keeps_run_task writes_only_data writes_only_data_refl
             writes_only_data_trans L writes_only_data_set_data P J
             fuel s Hc).
Qed.

(** *** Lines handled by a polling task *)

Lemma process_output_malformed (fuel : nat) (line : string) (s : task) :
  is_json_task (cls s) = true ->
  json_loads line = None ->
  _process_output fuel line s
  = (Raise ValueError, add_log (Error_parse line) s).
Proof.
  intros Hc E. rewrite process_output_unfold.
  unfold _process_output_with, dispatch.
  destruct (cls s); try discriminate;
    try (now apply process_output_with_malformed);
    unfold SFDXJsonPollingTask_process_output_with, bind, gets;
    now rewrite (process_output_with_malformed _ _ _ E).
Qed.

(** What the inherited handler raises, the polling handler raises. *)
Lemma polling_handler_raises_with_inherited (poll : M unit) (line : string)
    (s s' : task) (e : exn) :
  SFDXJsonTask_process_output_with poll line s = (Raise e, s') ->
  SFDXJsonPollingTask_process_output_with poll line s = (Raise e, s').
Proof.
  intros H. unfold SFDXJsonPollingTask_process_output_with.
  unfold bind at 1, gets. unfold bind. now rewrite H.
Qed.

Lemma polling_line_raises_in_process_data (fuel : nat) (line : string)
    (v : json) (s : task) (e : exn) :
  is_polling (cls s) = true ->
  json_loads line = Some v ->
  SFDXJsonPollingTask_process_data (_poll fuel)
    (set_return_value "data" v s)
  = (Raise e, set_return_value "data" v s) ->
  _process_output fuel line s = (Raise e, set_return_value "data" v s).
Proof.
  intros Hc E H. rewrite process_output_unfold.
  unfold _process_output_with, dispatch.
  destruct (cls s) eqn:Ec; try discriminate;
    apply polling_handler_raises_with_inherited;
    rewrite (process_output_with_decoded _ _ _ _ E);
    unfold _process_data_with, dispatch;
    change (cls (set_return_value "data" v s)) with (cls s);
    rewrite Ec; exact H.
Qed.

(** X4: once the job identifier is set to a true value, a polling task
    handles no line without an exception: a line that is not JSON is
    logged and raises [ValueError], a line that is JSON is stored and
    logged and raises [TypeError]; no process is started, and the
    identifier and the completion flag are as before. *)
Theorem polling_phase_line_always_raises (fuel : nat) (line : string)
    (s : task) (j : json) :
  is_polling (cls s) = true ->
  job_id s = Some j ->
  truthy j = true ->
  _process_output fuel line s
  = match json_loads line with
    | Some v =>
        (Raise TypeError,
         add_log (Info_poll_data v) (set_return_value "data" v s))
    | None => (Raise ValueError, add_log (Error_parse line) s)
    end
  /\ spawned (snd (_process_output fuel line s)) = spawned s
  /\ job_id (snd (_process_output fuel line s)) = Some j
  /\ poll_complete (snd (_process_output fuel line s)) = poll_complete s.
Proof.
  intros Hc J T.
  assert (is_json_task (cls s) = true) as Hj
    by (unfold is_json_task; rewrite Hc; apply orb_true_r).
  destruct (json_loads line) as [v|] eqn:E.
  - rewrite (polling_line_with_job_id fuel line v j s Hc E J T).
    simpl. auto.
  - rewrite (process_output_malformed fuel line s Hj E). simpl. auto.
Qed.

(** X5: while the job identifier is unset, a line that decodes to a
    mapping without ['id'] raises [KeyError], and one that decodes to
    anything but a mapping raises [TypeError]; the record is stored, and
    nothing else changes: no identifier, no poll. *)
Theorem first_line_without_id_raises (fuel : nat) (line : string)
    (v j : json) (s : task) :
  is_polling (cls s) = true ->
  job_id s = Some j ->
  truthy j = false ->
  json_loads line = Some v ->
  match v with JObject o => o !! "id" = None | _ => True end ->
  _process_output fuel line s
  = (Raise match v with JObject _ => KeyError "id" | _ => TypeError end,
     set_return_value "data" v s).
Proof.
  intros Hc J F E I.
  apply polling_line_raises_in_process_data; auto.
  unfold SFDXJsonPollingTask_process_data, bind, get_job_id,
    return_values_data.
  change (job_id (set_return_value "data" v s)) with (job_id s).
  rewrite J, F.
  change (return_values (set_return_value "data" v s))
    with (<["data" := v]> (return_values s)).
  rewrite lookup_insert_eq.
  destruct v; try reflexivity. simpl. now rewrite I.
Qed.

(** X6: on a polling task whose [_init_task] has not run, so that there
    is no attribute [job_id], every line that decodes raises
    [AttributeError] inside the inherited handler, after the record is
    stored; the [if not started] branch is not reached this way
    either. *)
Theorem polling_without_init_task_raises (fuel : nat) (line : string)
    (v : json) (s : task) :
  is_polling (cls s) = true ->
  job_id s = None ->
  json_loads line = Some v ->
  _process_output fuel line s
  = (Raise (AttributeError "job_id"), set_return_value "data" v s)
  /\ SFDXJsonTask_process_output fuel line s = _process_output fuel line s.
Proof.
  intros Hc J E.
  assert (SFDXJsonPollingTask_process_data (_poll fuel)
            (set_return_value "data" v s)
          = (Raise (AttributeError "job_id"),
             set_return_value "data" v s)) as D.
  { unfold SFDXJsonPollingTask_process_data, bind, get_job_id.
    change (job_id (set_return_value "data" v s)) with (job_id s).
    now rewrite J. }
  rewrite (polling_line_raises_in_process_data fuel line v s _ Hc E D).
  split; [reflexivity|].
  unfold SFDXJsonTask_process_output.
  rewrite (process_output_with_decoded _ _ _ _ E).
  unfold _process_data_with, dispatch.
  change (cls (set_return_value "data" v s)) with (cls s).
  destruct (cls s); try discriminate; exact D.
Qed.

(** *** Several lines in a row *)

Lemma json_task_line (fuel : nat) (line : string) (v : json) (s : task) :
  cls s = SFDXJsonTask ->
  json_loads line = Some v ->
  _process_output fuel line s
  = (Return tt, add_log (Info_json v) (set_return_value "data" v s)).
Proof.
  intros Ec E. rewrite process_output_unfold.
  unfold _process_output_with, dispatch. rewrite Ec.
  rewrite (process_output_with_decoded _ _ _ _ E).
  unfold _process_data_with, dispatch.
  change (cls (set_return_value "data" v s)) with (cls s). rewrite Ec.
  unfold SFDXJsonTask_process_data, bind, return_values_data, modify.
  change (return_values (set_return_value "data" v s))
    with (<["data" := v]> (return_values s)).
  now rewrite lookup_insert_eq.
Qed.

Lemma json_task_lines (fuel : nat) (lines : list string) (vs : list json)
    (s : task) :
  cls s = SFDXJsonTask ->
  decode_all lines = Some vs ->
  exists s',
    for_each (_process_output fuel) lines s = (Return tt, s')
    /\ cls s' = SFDXJsonTask
    /\ logger s' = (logger s ++ map Info_json vs)%list
    /\ return_values s' !! "data"
       = from_option Some (return_values s !! "data") (last vs).
Proof.
  revert vs s. induction lines as [|line lines IH]; intros vs s Ec D.
  - injection D as <-. exists s. simpl. rewrite app_nil_r. auto.
  - simpl in D. destruct (json_loads line) as [v|] eqn:E; [|discriminate].
    destruct (decode_all lines) as [vs'|] eqn:D'; [|discriminate].
    injection D as <-.
    destruct (IH vs' (add_log (Info_json v) (set_return_value "data" v s))
                Ec eq_refl) as (s' & R & Ec' & L & V).
    exists s'. simpl for_each. unfold bind.
    rewrite (json_task_line fuel line v s Ec E).
    split; [exact R|]. split; [exact Ec'|]. split.
    + rewrite L. simpl. now rewrite <- app_assoc.
    + rewrite V, last_cons. simpl. rewrite lookup_insert_eq.
      now destruct (last vs').
Qed.

(** X7: an SFDXJsonTask given lines that all decode handles every one of
    them without error, logs one record per line in the order of the
    lines, and is left with the value of the last line as its record (the
    record it had, when there is no line). *)
Theorem json_task_keeps_the_last_line (fuel : nat) (lines : list string)
    (vs : list json) (s : task) :
  cls s = SFDXJsonTask ->
  decode_all lines = Some vs ->
  exists s',
    for_each (_process_output fuel) lines s = (Return tt, s')
    /\ logger s' = (logger s ++ map Info_json vs)%list
    /\ return_values s' !! "data"
       = from_option Some (return_values s !! "data") (last vs).
Proof.
  intros Ec D.
  destruct (json_task_lines fuel lines vs s Ec D) as (s' & R & _ & L & V).
  now exists s'.
Qed.

(** X8: when a line is not JSON, an SFDXJsonTask handles the lines before
    it, raises on it and handles none of the lines after it: the log
    ends with the error for that line, and the record is that of the
    last line before it. *)
Theorem malformed_line_stops_the_lines (fuel : nat)
    (before after : list string) (bad : string) (vs : list json)
    (s : task) :
  cls s = SFDXJsonTask ->
  decode_all before = Some vs ->
  json_loads bad = None ->
  exists s',
    for_each (_process_output fuel) (before ++ bad :: after) s
    = (Raise ValueError, s')
    /\ logger s'
       = (logger s ++ map Info_json vs ++ [Error_parse bad])%list
    /\ return_values s' !! "data"
       = from_option Some (return_values s !! "data") (last vs).
Proof.
  revert vs s. induction before as [|line before IH]; intros vs s Ec D B.
  - injection D as <-. exists (add_log (Error_parse bad) s).
    simpl for_each. unfold bind.
    rewrite (process_output_malformed fuel bad s)
      by first [exact B | now rewrite Ec].
    repeat split.
  - simpl in D. destruct (json_loads line) as [v|] eqn:E; [|discriminate].
    destruct (decode_all before) as [vs'|] eqn:D'; [|discriminate].
    injection D as <-.
    destruct (IH vs' (add_log (Info_json v) (set_return_value "data" v s))
                Ec eq_refl B) as (s' & R & L & V).
    exists s'. simpl app. simpl for_each. unfold bind.
    rewrite (json_task_line fuel line v s Ec E).
    split; [exact R|]. split.
    + rewrite L. simpl. now rewrite <- app_assoc.
    + rewrite V, last_cons. simpl. rewrite lookup_insert_eq.
      now destruct (last vs').
Qed.

(** *** The converters *)

Lemma converter_line (fuel : nat) (line : string) (v : json) (s : task) :
  json_loads line = Some v ->
  (cls s = SFDXConvertFrom ->
   _process_output fuel line s
   = SFDXConvertFrom_process_data (set_return_value "data" v s))
  /\ (cls s = SFDXConvertTo ->
      _process_output fuel line s
      = SFDXConvertTo_process_data (set_return_value "data" v s)).
Proof.
  intros E. split; intros Ec;
    rewrite process_output_unfold;
    unfold _process_output_with, dispatch; rewrite Ec;
    rewrite (process_output_with_decoded _ _ _ _ E);
    unfold _process_data_with, dispatch;
    change (cls (set_return_value "data" v s)) with (cls s);
    now rewrite Ec.
Qed.

Lemma converter_data (v : json) (s : task) :
  return_values_data (set_return_value "data" v s)
  = (Return v, set_return_value "data" v s).
Proof.
  unfold return_values_data.
  change (return_values (set_return_value "data" v s))
    with (<["data" := v]> (return_values s)).
  now rewrite lookup_insert_eq.
Qed.

Lemma convert_from_line_not_zero (fuel : nat) (line : string) (v : json)
    (s : task) :
  cls s = SFDXConvertFrom ->
  json_loads line = Some v ->
  status_not_zero v = true ->
  _process_output fuel line s = (Return tt, set_return_value "data" v s).
Proof.
  intros Ec E N. rewrite (proj1 (converter_line fuel line v s E) Ec).
  destruct v; try discriminate. simpl in N.
  unfold SFDXConvertFrom_process_data.
  rewrite (bind_Return _ _ _ _ _ (converter_data _ s)).
  unfold bind, py_get, ret.
  now destruct (py_eq_zero (default JNull (o !! "status"))).
Qed.

(** X9: a converter handles a line whose record has no ['status'], or a
    status other than [0], in silence: the record is stored, nothing is
    logged and nothing is raised. *)
Theorem converter_is_silent_unless_status_is_zero (fuel : nat)
    (line : string) (v : json) (s : task) :
  cls s = SFDXConvertFrom \/ cls s = SFDXConvertTo ->
  json_loads line = Some v ->
  status_not_zero v = true ->
  _process_output fuel line s = (Return tt, set_return_value "data" v s).
Proof.
  intros Hc E N. destruct (converter_line fuel line v s E) as [F T].
  destruct v; try discriminate. simpl in N.
  destruct Hc as [Ec|Ec]; [rewrite (F Ec) | rewrite (T Ec)];
    unfold SFDXConvertFrom_process_data, SFDXConvertTo_process_data;
    rewrite (bind_Return _ _ _ _ _ (converter_data _ s));
    unfold bind, py_get, ret;
    now destruct (py_eq_zero (default JNull (o !! "status"))).
Qed.

(** X10: a line that decodes to something that is not a mapping (a list,
    a string, a number, [null]) is stored and logged by an SFDXJsonTask
    without error, and is stored and then refused with [AttributeError]
    by both converters. *)
Theorem only_converters_need_a_mapping (fuel : nat) (line : string)
    (v : json) (s : task) :
  json_loads line = Some v ->
  match v with JObject _ => False | _ => True end ->
  (cls s = SFDXJsonTask ->
   _process_output fuel line s
   = (Return tt, add_log (Info_json v) (set_return_value "data" v s)))
  /\ (cls s = SFDXConvertFrom \/ cls s = SFDXConvertTo ->
      _process_output fuel line s
      = (Raise (AttributeError "get"), set_return_value "data" v s)).
Proof.
  intros E N. split.
  - intros Ec. now apply json_task_line.
  - intros Hc. destruct (converter_line fuel line v s E) as [F T].
    destruct Hc as [Ec|Ec]; [rewrite (F Ec) | rewrite (T Ec)];
      unfold SFDXConvertFrom_process_data, SFDXConvertTo_process_data;
      rewrite (bind_Return _ _ _ _ _ (converter_data _ s));
      destruct v; try reflexivity; destruct N.
Qed.

(** X11: on a record whose status is [0] (or [False], or a real zero) a
    converter logs the conversion from [src] to [dest], once, when the
    options hold both; when ['src'] is missing it raises [KeyError] for
    it, and for ['dest'] when only that one is missing, logging
    nothing. *)
Theorem converter_reports_success (fuel : nat) (line : string)
    (o : gmap string json) (s : task)
    (success : string -> string -> log_record) :
  (cls s = SFDXConvertFrom /\ success = Info_converted_dx)
  \/ (cls s = SFDXConvertTo /\ success = Info_converted_metadata) ->
  json_loads line = Some (JObject o) ->
  py_eq_zero (default JNull (o !! "status")) = true ->
  _process_output fuel line s
  = match options s !! "src", options s !! "dest" with
    | Some src, Some dest =>
        (Return tt,
         add_log (success src dest)
           (set_return_value "data" (JObject o) s))
    | None, _ =>
        (Raise (KeyError "src"), set_return_value "data" (JObject o) s)
    | Some _, None =>
        (Raise (KeyError "dest"), set_return_value "data" (JObject o) s)
    end.
Proof.
  intros Hc E Z. destruct (converter_line fuel line _ s E) as [F T].
  destruct Hc as [[Ec ->]|[Ec ->]]; [rewrite (F Ec) | rewrite (T Ec)];
    unfold SFDXConvertFrom_process_data, SFDXConvertTo_process_data;
    rewrite (bind_Return _ _ _ _ _ (converter_data _ s));
    unfold bind, py_get, ret; rewrite Z;
    unfold options_getitem;
    repeat change (options (set_return_value "data" (JObject o) s))
      with (options s);
    (destruct (options s !! "src"); [|reflexivity]);
    repeat change (options (set_return_value "data" (JObject o) s))
      with (options s);
    now destruct (options s !! "dest").
Qed.

(** *** The exit code after the lines *)

Lemma convert_from_exit_cases (rc : Z) (s : task) :
  rc <> 0%Z ->
  SFDXConvertFrom_handle_returncode rc s
  = match return_values s !! "data" with
    | None => (Raise (KeyError "data"), s)
    | Some (JObject o) =>
        match o !! "message" with
        | Some m =>
            (Raise (CommandException (FromRecord m)),
             add_log (Error_message m) s)
        | None => (Raise (KeyError "message"), s)
        end
    | Some _ => (Raise TypeError, s)
    end.
Proof.
  intros N. unfold SFDXConvertFrom_handle_returncode.
  destruct (Z.eqb_spec rc 0) as [->|_]; [now destruct N|].
  unfold bind, return_values_data, modify. simpl.
  destruct (return_values s !! "data") as [d|] eqn:D; [|reflexivity].
  destruct d; try reflexivity. simpl.
  destruct (o !! "message") as [m|] eqn:I; [|reflexivity].
  simpl. rewrite D. simpl. now rewrite I.
Qed.

(** X12: on a non-zero exit code [SFDXConvertFrom._handle_returncode]
    never returns: it raises [CommandException] with the message of the
    last record after logging it, [KeyError] when there is no record or
    the record has no ['message'], and [TypeError] when the record is not
    a mapping; only in the first case is anything logged. *)
Theorem convert_from_nonzero_exit_always_raises (rc : Z) (s : task) :
  rc <> 0%Z ->
  SFDXConvertFrom_handle_returncode rc s
  = match return_values s !! "data" with
    | None => (Raise (KeyError "data"), s)
    | Some (JObject o) =>
        match o !! "message" with
        | Some m =>
            (Raise (CommandException (FromRecord m)),
             add_log (Error_message m) s)
        | None => (Raise (KeyError "message"), s)
        end
    | Some _ => (Raise TypeError, s)
    end
  /\ fst (SFDXConvertFrom_handle_returncode rc s) <> Return tt.
Proof.
  intros N. rewrite (convert_from_exit_cases rc s N). split; [reflexivity|].
  destruct (return_values s !! "data") as [[]|]; try discriminate.
  destruct (o !! "message"); discriminate.
Qed.

Lemma converter_lines_not_zero (fuel : nat) (lines : list string)
    (vs : list json) (s : task) :
  cls s = SFDXConvertFrom ->
  decode_all lines = Some vs ->
  forallb status_not_zero vs = true ->
  exists s',
    for_each (_process_output fuel) lines s = (Return tt, s')
    /\ cls s' = SFDXConvertFrom
    /\ logger s' = logger s
    /\ return_values s' !! "data"
       = from_option Some (return_values s !! "data") (last vs).
Proof.
  revert vs s. induction lines as [|line lines IH]; intros vs s Ec D N.
  - injection D as <-. exists s. simpl. auto.
  - simpl in D. destruct (json_loads line) as [v|] eqn:E; [|discriminate].
    destruct (decode_all lines) as [vs'|] eqn:D'; [|discriminate].
    injection D as <-. simpl in N. apply andb_true_iff in N as [Nv N].
    destruct (IH vs' (set_return_value "data" v s) Ec eq_refl N)
      as (s' & R & Ec' & L & V).
    exists s'. simpl for_each. unfold bind.
    rewrite (convert_from_line_not_zero fuel line v s Ec E Nv).
    split; [exact R|]. split; [exact Ec'|]. split; [exact L|].
    rewrite V, last_cons. simpl. rewrite lookup_insert_eq.
    now destruct (last vs').
Qed.

(** X13: when an SFDXConvertFrom has handled lines whose records all have
    a status other than [0] and the process then exits with a non-zero
    code, the [CommandException] raised carries the ['message'] of the
    last line, whatever the lines before it said; that message is the
    only thing logged. *)
Theorem convert_failure_reports_the_last_message (fuel : nat)
    (lines : list string) (vs : list json) (o : gmap string json)
    (m : json) (rc : Z) (s : task) :
  cls s = SFDXConvertFrom ->
  decode_all lines = Some vs ->
  forallb status_not_zero vs = true ->
  last vs = Some (JObject o) ->
  o !! "message" = Some m ->
  rc <> 0%Z ->
  exists s',
    (for_each (_process_output fuel) lines ;;; _handle_returncode rc) s
    = (Raise (CommandException (FromRecord m)), s')
    /\ logger s' = (logger s ++ [Error_message m])%list
    /\ return_values s' !! "data" = Some (JObject o).
Proof.
  intros Ec D N La I Nz.
  destruct (converter_lines_not_zero fuel lines vs s Ec D N)
    as (s1 & R & Ec1 & L & V).
  rewrite La in V. simpl in V.
  exists (add_log (Error_message m) s1).
  rewrite (bind_Return _ _ _ _ _ R).
  unfold _handle_returncode, dispatch. rewrite Ec1.
  rewrite (convert_from_exit_cases rc s1 Nz), V, I.
  repeat split; simpl; auto. now rewrite L.
Qed.

(** *** Environment and commands *)

(** X14: for a task of class SFDXOrgTask or SFDXDeploy bound to an org
    that is not a scratch org, the environment maps [SFDX_INSTANCE_URL]
    to the instance URL and [SFDX_USERNAME] to the access token whatever
    the inherited environment held for them, and every other variable is
    as inherited; the task itself is unchanged. *)
Theorem session_variables_override_inherited (s : task) (o : org) :
  cls s = SFDXOrgTask \/ cls s = SFDXDeploy ->
  org_config s = Some o ->
  scratch o = false ->
  exists env,
    _get_env s = (Return env, s)
    /\ env !! "SFDX_INSTANCE_URL" = Some (instance_url o)
    /\ env !! "SFDX_USERNAME" = Some (access_token o)
    /\ (forall k,
          k <> "SFDX_INSTANCE_URL" -> k <> "SFDX_USERNAME" ->
          env !! k = Command_get_env s !! k).
Proof.
  intros Hc Eo Es.
  exists (<["SFDX_USERNAME" := access_token o]>
            (<["SFDX_INSTANCE_URL" := instance_url o]> (Command_get_env s))).
  split.
  - unfold _get_env, dispatch.
    destruct Hc as [-> | ->];
      unfold SFDXOrgTask_get_env, bind, gets; now rewrite Eo, Es.
  - split; [|split].
    + rewrite lookup_insert_ne by discriminate. apply lookup_insert_eq.
    + apply lookup_insert_eq.
    + intros k K1 K2. now rewrite !lookup_insert_ne by congruence.
Qed.

Lemma get_command_cases (s : task) :
  _get_command s
  = match cls s with
    | SFDXConvertFrom | SFDXConvertTo =>
        match options s !! "src", options s !! "dest" with
        | Some src, Some dest =>
            (Return (SFDXBaseTask_get_command s ++ " -r " ++ src
                     ++ " -d " ++ dest ++ " --json"), s)
        | None, _ => (Raise (KeyError "src"), s)
        | Some _, None => (Raise (KeyError "dest"), s)
        end
    | SFDXOrgTask => (Return (SFDXOrgTask_get_command s), s)
    | SFDXDeploy => (Return (SFDXDeploy_get_command s), s)
    | _ => (Return (SFDXBaseTask_get_command s), s)
    end.
Proof.
  unfold _get_command, dispatch.
  destruct (cls s); try reflexivity;
    unfold SFDXConvertFrom_get_command, SFDXConvertTo_get_command, bind,
      gets, options_getitem;
    (destruct (options s !! "src"); [|reflexivity]);
    now destruct (options s !! "dest").
Qed.

Lemma base_command_starts_with_cli (s : task) (rest : string) :
  String.prefix "sfdx " (SFDXBaseTask_get_command s ++ rest) = true.
Proof.
  unfold SFDXBaseTask_get_command, SFDX_CLI.
  generalize (default (class_command (cls s)) (options s !! "command")).
  intros c. exact (prefix_app "sfdx " (c ++ rest)).
Qed.

Lemma org_command_starts_with_cli (s : task) (rest : string) :
  String.prefix "sfdx " (SFDXOrgTask_get_command s ++ rest) = true.
Proof.
  unfold SFDXOrgTask_get_command.
  destruct (org_config s) as [o|]; [destruct (scratch o)|];
    try apply base_command_starts_with_cli.
  unfold SFDXBaseTask_get_command, SFDX_CLI.
  generalize (default (class_command (cls s)) (options s !! "command")).
  intros c.
  exact (prefix_app "sfdx " ((c ++ " -u " ++ username o) ++ rest)).
Qed.

Lemma get_command_prefix (s : task) (c : string) :
  fst (_get_command s) = Return c -> String.prefix "sfdx " c = true.
Proof.
  assert (String.prefix "sfdx " (SFDXBaseTask_get_command s) = true) as B.
  { rewrite <- (append_empty_r (SFDXBaseTask_get_command s)).
    apply base_command_starts_with_cli. }
  assert (String.prefix "sfdx " (SFDXOrgTask_get_command s) = true) as O.
  { rewrite <- (append_empty_r (SFDXOrgTask_get_command s)).
    apply org_command_starts_with_cli. }
  intros H. rewrite get_command_cases in H.
  destruct (cls s);
    try (destruct (options s !! "src"); [|discriminate];
         destruct (options s !! "dest"); [|discriminate]);
    simpl in H; injection H as <-;
    first [ exact B | exact O | apply base_command_starts_with_cli
          | apply org_command_starts_with_cli ].
Qed.

Lemma get_poll_command_prefix (s : task) (c : string) :
  fst (_get_poll_command s) = Return (Some c) ->
  String.prefix "sfdx " c = true.
Proof.
  intros H. unfold _get_poll_command, dispatch in H.
  destruct (cls s); try discriminate.
  destruct (job_id s) as [j|] eqn:J; [destruct (truthy j) eqn:T|].
  - rewrite (deploy_poll_command_with_job_id s j J T) in H.
    injection H as <-. apply org_command_starts_with_cli.
  - unfold SFDXDeploy_get_poll_command, bind, get_job_id in H.
    rewrite J, T in H. discriminate.
  - unfold SFDXDeploy_get_poll_command, bind, get_job_id in H.
    rewrite J in H. discriminate.
Qed.

(** X15: whatever the class of the task, a command that [_get_command]
    returns, and a poll command that [_get_poll_command] returns, starts
    with the name of the CLI, [sfdx], and a blank. *)
Theorem every_command_starts_with_the_cli (s : task) (c : string) :
  fst (_get_command s) = Return c
  \/ fst (_get_poll_command s) = Return (Some c) ->
  String.prefix "sfdx " c = true.
Proof.
  intros [H|H]; [now apply (get_command_prefix s) |
                 now apply (get_poll_command_prefix s)].
Qed.

(** X16: a converter builds its command from the options ['src'] and
    ['dest']: with both it returns the base command followed by
    [-r <src> -d <dest> --json]; without ['src'] it raises [KeyError] for
    ['src'], and with ['src'] but no ['dest'] for ['dest']; the task is
    unchanged in every case. *)
Theorem converter_command_needs_src_and_dest (s : task) :
  cls s = SFDXConvertFrom \/ cls s = SFDXConvertTo ->
  _get_command s
  = match options s !! "src", options s !! "dest" with
    | Some src, Some dest =>
        (Return (SFDXBaseTask_get_command s ++ " -r " ++ src
                 ++ " -d " ++ dest ++ " --json"), s)
    | None, _ => (Raise (KeyError "src"), s)
    | Some _, None => (Raise (KeyError "dest"), s)
    end.
Proof.
  intros Hc. unfold _get_command, dispatch.
  destruct Hc as [-> | ->];
    unfold SFDXConvertFrom_get_command, SFDXConvertTo_get_command, bind,
      gets, options_getitem;
    (destruct (options s !! "src"); [|reflexivity]);
    now destruct (options s !! "dest").
Qed.

(** X17: [SFDXBaseTask._init_options], once the inherited set-up has
    returned, stores under ['command'] the command built for the class of
    the task and changes nothing else; the stored command starts with
    [sfdx], so a command built again from the options afterwards starts
    with [sfdx sfdx]. *)
Theorem init_options_stores_the_prefixed_command
    (kwargs : gmap string string) (s s1 : task) (c : string) :
  Command_init_options kwargs s = (Return tt, s1) ->
  _get_command s1 = (Return c, s1) ->
  SFDXBaseTask_init_options kwargs s
  = (Return tt, set_option "command" c s1)
  /\ SFDXBaseTask_get_command (set_option "command" c s1) = "sfdx " ++ c
  /\ String.prefix "sfdx sfdx "
       (SFDXBaseTask_get_command (set_option "command" c s1)) = true.
Proof.
  intros I G.
  assert (SFDXBaseTask_get_command (set_option "command" c s1)
          = "sfdx " ++ c) as B.
  { unfold SFDXBaseTask_get_command. simpl options.
    now rewrite lookup_insert_eq. }
  split; [|split; [exact B|]].
  - unfold SFDXBaseTask_init_options.
    rewrite (bind_Return _ _ _ _ _ I). now rewrite (bind_Return _ _ _ _ _ G).
  - rewrite B.
    assert (String.prefix "sfdx " c = true) as P.
    { apply (get_command_prefix s1). now rewrite G. }
    destruct c as [|c0 c]; [discriminate|]. exact P.
Qed.

(** The command of a deployment and its poll command extend the same
    org command: the first adds [-d] and the path option, or
    [NO_PATH_PROVIDED] when there is none, the second adds [-i] and the
    job identifier and no path; neither changes the task. *)
Theorem deploy_and_poll_commands_extend_the_org_command (s : task)
    (j : json) :
  cls s = SFDXDeploy ->
  job_id s = Some j ->
  truthy j = true ->
  _get_command s
  = (Return (SFDXOrgTask_get_command s ++ " -d "
             ++ default "NO_PATH_PROVIDED" (options s !! "path")), s)
  /\ _get_poll_command s
     = (Return (Some (SFDXOrgTask_get_command s ++ " -i "
                      ++ format_value j)), s).
Proof.
  intros Ec J T. split.
  - now rewrite get_command_cases, Ec.
  - unfold _get_poll_command, dispatch. rewrite Ec.
    now apply deploy_poll_command_with_job_id.
Qed.

(** *** Polls that cannot be started or cannot end *)

(** X18: the poll action of the base class SFDXJsonPollingTask raises
    [NotImplementedError] before any process is started, for every line
    handler; that of a deployment whose job identifier is false ([None],
    an empty string) runs a process with no command at all, [None]. *)
Theorem poll_action_without_a_command (handler : string -> M unit)
    (s : task) (o : org) :
  org_config s = Some o ->
  (cls s = SFDXJsonPollingTask ->
   SFDXJsonPollingTask_poll_action handler s
   = (Raise NotImplementedError, s))
  /\ (cls s = SFDXDeploy ->
      forall j, job_id s = Some j -> truthy j = false ->
      exists env,
        _get_env s = (Return env, s)
        /\ SFDXJsonPollingTask_poll_action handler s
           = Command_run_command handler _handle_returncode env None s).
Proof.
  intros Eo. split.
  - intros Ec. unfold SFDXJsonPollingTask_poll_action.
    apply bind_Raise. unfold _get_poll_command, dispatch. now rewrite Ec.
  - intros Ec j J F.
    destruct (get_env_of_org_task s o Eo Ec) as [env Henv].
    exists env. split; [exact Henv|].
    unfold SFDXJsonPollingTask_poll_action.
    erewrite bind_Return.
    2:{ unfold _get_poll_command, dispatch. rewrite Ec.
        unfold SFDXDeploy_get_poll_command, bind, get_job_id.
        now rewrite J, F. }
    now rewrite (bind_Return _ _ _ _ _ Henv).
Qed.

Lemma poll_loop_never_returns (action : M unit) (n : nat) (s : task) :
  stable action ->
  is_json_task (cls s) = true ->
  poll_complete s = false ->
  fst (BaseTask_poll action n s) <> Return tt.
Proof.
  intros Hs. revert s. induction n as [|n IH]; intros s Hc P.
  - discriminate.
  - simpl. unfold bind at 1.
    destruct (Hs s Hc) as (Ec & Ep & _).
    destruct (action s) as [[[]|e|] s1]; simpl in *; try discriminate.
    unfold bind, gets. rewrite Ep, P. apply IH; congruence.
Qed.

Lemma inherited_handler_never_returns (fuel : nat) (line : string)
    (s : task) :
  is_polling (cls s) = true ->
  poll_complete s = false ->
  fst (SFDXJsonTask_process_output_with (_poll fuel) line s) <> Return tt.
Proof.
  intros Hc P.
  assert (is_json_task (cls s) = true) as Hj
    by (unfold is_json_task; rewrite Hc; apply orb_true_r).
  destruct (json_loads line) as [v|] eqn:E.
  2:{ now rewrite (process_output_with_malformed _ _ _ E). }
  rewrite (process_output_with_decoded _ _ _ _ E).
  set (s1 := set_return_value "data" v s).
  assert (fst (SFDXJsonPollingTask_process_data (_poll fuel) s1)
          <> Return tt) as D.
  { unfold SFDXJsonPollingTask_process_data. unfold bind at 1, get_job_id.
    destruct (job_id s1) as [j|]; [|discriminate].
    destruct (truthy j).
    - rewrite (process_poll_data_TypeError s1 v) by apply lookup_insert_eq.
      discriminate.
    - unfold bind at 1, return_values_data.
      change (return_values s1) with (<["data" := v]> (return_values s)).
      rewrite lookup_insert_eq. unfold bind at 1.
      destruct v; try discriminate. simpl.
      destruct (o !! "id") as [id|]; [|discriminate].
      unfold bind, modify, ret.
      destruct fuel as [|fuel]; [discriminate|].
      apply poll_loop_never_returns; auto.
      apply stable_poll_action, stable_process_output. }
  unfold _process_data_with, dispatch.
  change (cls s1) with (cls s).
  destruct (cls s); try discriminate; exact D.
Qed.

(** X19: a polling task whose completion flag is not set handles no line
    to the end: whatever the line, the job identifier and the processes
    polled, [_process_output] ends with an exception or in a poll loop
    that does not end, and the completion flag is still not set. *)
Theorem polling_task_never_finishes_a_line (fuel : nat) (line : string)
    (s : task) :
  is_polling (cls s) = true ->
  poll_complete s = false ->
  fst (_process_output fuel line s) <> Return tt
  /\ poll_complete (snd (_process_output fuel line s)) = false.
Proof.
  intros Hc P. split.
  - pose proof (inherited_handler_never_returns fuel line s Hc P) as H.
    rewrite process_output_unfold. unfold _process_output_with, dispatch.
    destruct (cls s); try discriminate;
      unfold SFDXJsonPollingTask_process_output_with;
      unfold bind at 1, gets; unfold bind;
      destruct (SFDXJsonTask_process_output_with (_poll fuel) line s)
        as [[[]|e|] s1]; simpl in *; congruence.
  - assert (is_json_task (cls s) = true) as Hj
      by (unfold is_json_task; rewrite Hc; apply orb_true_r).
    destruct (stable_process_output fuel line s Hj) as (_ & Ep & _).
    now rewrite Ep.
Qed.

(** *** The record after a line *)

Lemma polling_line_without_polls (poll : M unit) (v : json) (s : task) :
  is_polling (cls s) = true ->
  starts_polling s v = false ->
  exists e s',
    SFDXJsonPollingTask_process_data poll (set_return_value "data" v s)
    = (Raise e, s')
    /\ return_values s' = <["data" := v]> (return_values s).
Proof.
  intros Hc Np. unfold starts_polling in Np. rewrite Hc in Np.
  simpl in Np.
  set (s1 := set_return_value "data" v s).
  assert (return_values s1 !! "data" = Some v) as D
    by apply lookup_insert_eq.
  unfold SFDXJsonPollingTask_process_data. unfold bind at 1, get_job_id.
  change (job_id s1) with (job_id s).
  destruct (job_id s) as [j|].
  2:{ exists (AttributeError "job_id"), s1. now split. }
  destruct (truthy j); simpl in Np.
  - exists TypeError, (add_log (Info_poll_data v) s1).
    split; [now apply process_poll_data_TypeError | reflexivity].
  - rewrite (bind_Return _ _ _ _ _ (return_values_data_Some s1 v D)).
    unfold bind at 1.
    destruct v as [| | | | | |o]; try (exists TypeError, s1; now split).
    simpl. destruct (o !! "id"); [discriminate|].
    exists (KeyError "id"), s1. now split.
Qed.

(** C7 as amended: when the line decodes to [v] and does not make a
    polling task start its polls (the task is not a polling task, or it
    has its job identifier already, or the record has no ['id']), the
    ['data'] entry of [return_values] is exactly [v] when
    [SFDXJsonTask._process_output] is over, and when the [_process_output]
    of the task's own class is over, whatever was stored before; no other
    entry is touched. *)
Theorem C7_decoded_line_is_stored (fuel : nat) (line : string) (v : json)
    (s : task) :
  json_loads line = Some v ->
  is_json_task (cls s) = true ->
  starts_polling s v = false ->
  return_values (snd (SFDXJsonTask_process_output fuel line s))
  = <["data" := v]> (return_values s)
  /\ return_values (snd (_process_output fuel line s))
     = <["data" := v]> (return_values s)
  /\ return_values (snd (_process_output fuel line s)) !! "data" = Some v.
Proof.
  intros E Hj Np.
  assert (return_values (snd (SFDXJsonTask_process_output fuel line s))
          = <["data" := v]> (return_values s)
          /\ return_values (snd (_process_output fuel line s))
             = <["data" := v]> (return_values s)) as [A B].
  { unfold SFDXJsonTask_process_output.
    rewrite process_output_unfold.
    destruct (is_polling (cls s)) eqn:Hp.
    - destruct (polling_line_without_polls (_poll fuel) v s Hp Np)
        as (e & s' & D & R).
      assert (SFDXJsonTask_process_output_with (_poll fuel) line s
              = (Raise e, s')) as I.
      { rewrite (process_output_with_decoded _ _ _ _ E).
        unfold _process_data_with, dispatch.
        change (cls (set_return_value "data" v s)) with (cls s).
        destruct (cls s); try discriminate; exact D. }
      rewrite I. split; [exact R|].
      unfold _process_output_with, dispatch.
      destruct (cls s); try discriminate;
        now rewrite (polling_handler_raises_with_inherited _ _ _ _ _ I).
    - assert (is_result_task (cls s) = true) as Hr.
      { unfold is_json_task in Hj. rewrite Hp in Hj.
        now rewrite orb_false_r in Hj. }
      assert (return_values
                (snd (SFDXJsonTask_process_output_with (_poll fuel) line s))
              = <["data" := v]> (return_values s)) as I.
      { rewrite (process_output_with_decoded _ _ _ _ E).
        now rewrite result_task_process_data_keeps_record. }
      split; [exact I|].
      unfold _process_output_with, dispatch.
      destruct (cls s); try discriminate; exact I. }
  split; [exact A|]. split; [exact B|].
  rewrite B. apply lookup_insert_eq.
Qed.

End Tasks.

(** ** The properties on the sample inputs *)

Local Abbreviation process_output :=
  (_process_output Json.loads Sample.py_str Sample.popen Sample.environ
     Sample.echo).
Local Abbreviation json_process_output :=
  (SFDXJsonTask_process_output Json.loads Sample.py_str Sample.popen
     Sample.environ Sample.echo).
Local Abbreviation run_task :=
  (Command_run_task Json.loads Sample.py_str Sample.popen Sample.environ
     Sample.echo).
Local Abbreviation process_output_started :=
  (_process_output_started Json.loads Sample.py_str Sample.popen
     Sample.environ Sample.echo).

Lemma sample_lines_decode :
  Json.loads Sample.started_line = Some Sample.started_record
  /\ Json.loads Sample.pending_line = Some Sample.pending_record
  /\ Json.loads Sample.done_line = Some Sample.done_record
  /\ Json.loads Sample.status_line = Some Sample.status_record
  /\ Json.loads Sample.garbage_line = None.
Proof. repeat split; vm_compute; reflexivity. Qed.

Lemma C8_witness :
  contains " -u test-user@example.com"
    (SFDXOrgTask_get_command Sample.deploy_task) = true
  /\ SFDXOrgTask_get_env Sample.environ Sample.deploy_task
     = (Return (Sample.environ Sample.deploy_task), Sample.deploy_task)
  /\ SFDXOrgTask_get_command Sample.keychain_task
     = SFDXBaseTask_get_command Sample.keychain_task
  /\ SFDXOrgTask_get_env Sample.environ Sample.keychain_task
     = (Return (<["SFDX_USERNAME" := "00D!token"]>
                  (<["SFDX_INSTANCE_URL" := "https://na1.salesforce.com"]>
                     (Sample.environ Sample.keychain_task))),
        Sample.keychain_task).
Proof.
  pose proof (C8_org_session_passing Sample.environ Sample.deploy_task
                Sample.scratch_org eq_refl) as S.
  pose proof (C8_org_session_passing Sample.environ Sample.keychain_task
                Sample.keychain_org eq_refl) as K.
  exact (conj (proj1 (proj2 S))
           (conj (proj2 (proj2 S)) (conj (proj1 K) (proj2 K)))).
Defined.

Lemma C4_witness :
  process_output 1 Sample.garbage_line Sample.polling_task
  = (Raise ValueError,
     add_log (Error_parse Sample.garbage_line) Sample.polling_task)
  /\ return_values
       (snd (process_output 1 Sample.garbage_line Sample.polling_task))
     = return_values Sample.polling_task.
Proof.
  exact (C4_malformed_line_raises Json.loads Sample.py_str Sample.popen
           Sample.environ Sample.echo 1 Sample.garbage_line
           Sample.polling_task eq_refl eq_refl).
Defined.

Lemma C7_witness :
  return_values
    (snd (process_output 1 Sample.status_line
            (Sample.holding Sample.failure_record Sample.convert_task)))
    !! "data"
  = Some Sample.status_record.
Proof.
  exact (proj2
           (proj2
              (C7_decoded_line_is_stored Json.loads Sample.py_str
                 Sample.popen Sample.environ Sample.echo 1
                 Sample.status_line Sample.status_record
                 (Sample.holding Sample.failure_record Sample.convert_task)
                 eq_refl eq_refl eq_refl))).
Defined.

(** C7 fails on the first line of a deployment: the line decodes to the
    record with id J1, and when [SFDXJsonTask._process_output] is over
    the record stored is that of the poll it started. *)
Lemma C7_counterexample :
  Json.loads Sample.started_line = Some Sample.started_record
  /\ return_values
       (snd (json_process_output 1 Sample.started_line Sample.running_task))
       !! "data"
     = Some Sample.pending_record
  /\ return_values
       (snd (json_process_output 1 Sample.started_line Sample.running_task))
       !! "data"
     <> Some Sample.started_record.
Proof.
  assert (return_values
            (snd (json_process_output 1 Sample.started_line
                    Sample.running_task)) !! "data"
          = Some Sample.pending_record) as R
    by (vm_compute; reflexivity).
  split; [vm_compute; reflexivity|]. split; [exact R|].
  rewrite R. intros H.
  apply (f_equal (fun r => match r with
                           | Some (JObject o) => o !! "id"
                           | _ => None
                           end)) in H.
  vm_compute in H. discriminate.
Qed.

Lemma C9_witness :
  SFDXJsonPollingTask_process_poll_data
    (Sample.holding Sample.done_record Sample.polling_task)
  = (Raise TypeError,
     add_log (Info_poll_data Sample.done_record)
       (Sample.holding Sample.done_record Sample.polling_task)).
Proof.
  exact (proj1
           (C9_process_poll_data_raises_TypeError Json.loads Sample.py_str
              Sample.popen Sample.environ Sample.echo
              (Sample.holding Sample.done_record Sample.polling_task)
              Sample.done_record eq_refl)).
Defined.

(** C3 at a poll record that is done: the body of [_check_poll_done]
    would answer [True], but the call made by [_process_poll_data] passes
    the record as an argument and raises [TypeError], so that
    [poll_complete] stays [False]; the same happens when the record
    reaches the task as a line. *)
Theorem C3_completion_check_is_never_evaluated :
  SFDXJsonPollingTask_check_poll_done
    (Sample.holding Sample.done_record Sample.polling_task)
  = (Return (JBool true),
     Sample.holding Sample.done_record Sample.polling_task)
  /\ SFDXJsonPollingTask_process_poll_data
       (Sample.holding Sample.done_record Sample.polling_task)
     = (Raise TypeError,
        add_log (Info_poll_data Sample.done_record)
          (Sample.holding Sample.done_record Sample.polling_task))
  /\ process_output 1 Sample.done_line Sample.polling_task
     = (Raise TypeError,
        add_log (Info_poll_data Sample.done_record)
          (Sample.holding Sample.done_record Sample.polling_task))
  /\ poll_complete
       (snd (process_output 1 Sample.done_line Sample.polling_task))
     = false.
Proof.
  assert (process_output 1 Sample.done_line Sample.polling_task
          = (Raise TypeError,
             add_log (Info_poll_data Sample.done_record)
               (Sample.holding Sample.done_record Sample.polling_task)))
    as R.
  { apply (polling_line_with_job_id Json.loads Sample.py_str Sample.popen
             Sample.environ Sample.echo 1 Sample.done_line
             Sample.done_record (JString "J1") Sample.polling_task);
      reflexivity. }
  split; [|split; [|split]].
  - vm_compute. reflexivity.
  - apply process_poll_data_TypeError. vm_compute. reflexivity.
  - exact R.
  - now rewrite R.
Qed.

Lemma C2_witness :
  SFDXDeploy_get_poll_command Sample.py_str Sample.deploy_task
  = (Return None, Sample.deploy_task).
Proof.
  exact (proj1
           (C2_poll_command_without_job_id Sample.py_str Sample.deploy_task
              JNull eq_refl eq_refl)).
Defined.

(** C2 fails on a deployment whose job identifier is still [None]: the
    poll command it is asked for is [None], and nothing is raised. *)
Lemma C2_counterexample :
  job_id Sample.deploy_task = Some JNull
  /\ _get_poll_command Sample.py_str Sample.deploy_task
     = (Return None, Sample.deploy_task)
  /\ ~ (exists e,
          fst (_get_poll_command Sample.py_str Sample.deploy_task)
          = Raise e).
Proof.
  assert (_get_poll_command Sample.py_str Sample.deploy_task
          = (Return None, Sample.deploy_task)) as R by reflexivity.
  split; [reflexivity|]. split; [exact R|].
  intros [e H]. rewrite R in H. discriminate.
Qed.

Lemma C6_witness :
  SFDXJsonPollingTask_process_data (ret tt)
    (Sample.holding Sample.started_record Sample.deploy_task)
  = (Return tt,
     set_job_id (JString "J1")
       (Sample.holding Sample.started_record Sample.deploy_task)).
Proof.
  exact (proj1
           (C6_first_record_sets_job_id Json.loads Sample.py_str
              Sample.popen Sample.environ Sample.echo (ret tt)
              (Sample.holding Sample.started_record Sample.deploy_task)
              JNull (JString "J1")
              {[ "id" := JString "J1"; "done" := JBool false ]}
              eq_refl eq_refl eq_refl eq_refl)).
Defined.

(** C6 fails on a first line [{"done": true}]: it has no identifier and
    it is done, yet handling it raises [KeyError] and [poll_complete]
    stays [False]. *)
Lemma C6_counterexample :
  process_output 1 Sample.done_line Sample.deploy_task
  = (Raise (KeyError "id"),
     Sample.holding Sample.done_record Sample.deploy_task)
  /\ poll_complete
       (snd (process_output 1 Sample.done_line Sample.deploy_task))
     = false.
Proof.
  assert (process_output 1 Sample.done_line Sample.deploy_task
          = (Raise (KeyError "id"),
             Sample.holding Sample.done_record Sample.deploy_task)) as R.
  { vm_compute. reflexivity. }
  split; [exact R | now rewrite R].
Qed.

Lemma C5_witness :
  SFDXConvertFrom_handle_returncode 1
    (Sample.holding Sample.failure_record Sample.convert_task)
  = (Raise (CommandException (FromRecord (JString "bad path"))),
     add_log (Error_message (JString "bad path"))
       (Sample.holding Sample.failure_record Sample.convert_task)).
Proof.
  assert (1 <> 0)%Z as N by discriminate.
  exact (proj1
           (C5_returncode_of_convert_from 1
              (Sample.holding Sample.failure_record Sample.convert_task)
              {[ "status" := JInt 1; "message" := JString "bad path" ]}
              (JString "bad path") N eq_refl eq_refl)).
Defined.

(** C5 fails on exit code 1 after a record [{"status": 1}], which has no
    message: the handler raises [KeyError], not a [CommandException] with
    a generic text. *)
Lemma C5_counterexample :
  _handle_returncode 1
    (Sample.holding Sample.status_record Sample.convert_task)
  = (Raise (KeyError "message"),
     Sample.holding Sample.status_record Sample.convert_task)
  /\ (forall text,
        fst (_handle_returncode 1
               (Sample.holding Sample.status_record Sample.convert_task))
        <> Raise (CommandException text)).
Proof.
  assert (_handle_returncode 1
            (Sample.holding Sample.status_record Sample.convert_task)
          = (Raise (KeyError "message"),
             Sample.holding Sample.status_record Sample.convert_task)) as R.
  { vm_compute. reflexivity. }
  split; [exact R|]. intros text. rewrite R. discriminate.
Qed.

Lemma C1_witness :
  exists env env' poll_command s',
    run_task 1 Sample.deploy_task = (Raise TypeError, s')
    /\ spawned s'
       = [(Some "force:mdapi:deploy", env); (Some poll_command, env')]
    /\ contains "J1" poll_command = true
    /\ job_id s' = Some (JString "J1")
    /\ return_values s' !! "data" = Some Sample.pending_record
    /\ poll_complete s' = false.
Proof.
  exact (C1_polling_stops_at_first_poll_record Json.loads Sample.py_str
           Sample.popen Sample.environ Sample.echo 0 Sample.deploy_task
           Sample.scratch_org "force:mdapi:deploy" Sample.started_line
           Sample.pending_line Sample.pending_record [] 0
           eq_refl eq_refl eq_refl eq_refl eq_refl eq_refl eq_refl
           (fun _ _ => eq_refl) (fun _ _ => eq_refl)).
Defined.

(** The run of the claim, with fuel for more polls than it needs: two
    processes are started, the deployment and one poll, and the run ends
    with [TypeError] on the record of that poll. *)
Lemma polling_scenario_evaluated :
  fst (run_task 8 Sample.deploy_task) = Raise TypeError
  /\ map fst (spawned (snd (run_task 8 Sample.deploy_task)))
     = [Some "force:mdapi:deploy";
        Some "sfdx force:mdapi:deploy -u test-user@example.com -i J1"]
  /\ poll_data_calls (snd (run_task 8 Sample.deploy_task)) = 1
  /\ poll_complete (snd (run_task 8 Sample.deploy_task)) = false.
Proof. repeat split; vm_compute; reflexivity. Qed.

Lemma C10_witness :
  process_output 1 Sample.started_line Sample.deploy_task
  = process_output_started 1 Sample.started_line Sample.deploy_task.
Proof.
  exact (proj1
           (proj2
              (proj2
                 (proj2
                    (C10_started_is_always_true Json.loads Sample.py_str
                       Sample.popen Sample.environ Sample.echo 1
                       Sample.started_line Sample.deploy_task
                       eq_refl eq_refl))))).
Defined.

(** C10 fails on a poll line handled once the job identifier is set:
    [_process_poll_data] is entered once, from [_process_data], and
    raises, so that the inherited handler does not return and the call
    that follows it in [_process_output] is not made. *)
Lemma C10_counterexample :
  truthy (default JNull (job_id Sample.polling_task)) = true
  /\ process_output 1 Sample.pending_line Sample.polling_task
     = json_process_output 1 Sample.pending_line Sample.polling_task
  /\ fst (json_process_output 1 Sample.pending_line Sample.polling_task)
     = Raise TypeError
  /\ poll_data_calls
       (snd (process_output 1 Sample.pending_line Sample.polling_task))
     = poll_data_calls Sample.polling_task + 1.
Proof. repeat split; vm_compute; reflexivity. Qed.

(** ** The further properties on the sample inputs *)

Local Abbreviation get_poll_command := (_get_poll_command Sample.py_str).
Local Abbreviation for_each_line :=
  (for_each
     (_process_output Json.loads Sample.py_str Sample.popen Sample.environ
        Sample.echo 1)).

Lemma options_org_and_job_id_are_frozen_witness :
  frozen Sample.deploy_task (snd (run_task 3 Sample.deploy_task)).
Proof.
  exact (proj2
           (options_org_and_job_id_are_frozen Json.loads Sample.py_str
              Sample.popen Sample.environ Sample.echo 3
              Sample.started_line Sample.deploy_task eq_refl)).
Defined.

Lemma poll_command_is_the_same_after_any_line_witness :
  fst (get_poll_command
         (snd (process_output 1 Sample.pending_line Sample.polling_task)))
  = fst (get_poll_command Sample.polling_task).
Proof.
  exact (proj1
           (poll_command_is_the_same_after_any_line Json.loads
              Sample.py_str Sample.popen Sample.environ Sample.echo 1
              Sample.pending_line Sample.polling_task (JString "J1")
              eq_refl eq_refl eq_refl)).
Defined.

Lemma return_values_only_data_is_written_witness :
  writes_only_data Sample.deploy_task (snd (run_task 3 Sample.deploy_task)).
Proof.
  exact (proj2
           (return_values_only_data_is_written Json.loads Sample.py_str
              Sample.popen Sample.environ Sample.echo 3
              Sample.started_line Sample.deploy_task eq_refl)).
Defined.

Lemma polling_phase_line_always_raises_witness :
  process_output 1 Sample.done_line Sample.polling_task
  = (Raise TypeError,
     add_log (Info_poll_data Sample.done_record)
       (Sample.holding Sample.done_record Sample.polling_task)).
Proof.
  exact (proj1
           (polling_phase_line_always_raises Json.loads Sample.py_str
              Sample.popen Sample.environ Sample.echo 1
              Sample.done_line Sample.polling_task (JString "J1")
              eq_refl eq_refl eq_refl)).
Defined.

Lemma first_line_without_id_raises_witness :
  process_output 1 Sample.list_line Sample.deploy_task
  = (Raise TypeError, Sample.holding Sample.list_record Sample.deploy_task).
Proof.
  exact (first_line_without_id_raises Json.loads Sample.py_str Sample.popen
           Sample.environ Sample.echo 1 Sample.list_line
           Sample.list_record JNull Sample.deploy_task
           eq_refl eq_refl eq_refl eq_refl I).
Defined.

Lemma polling_without_init_task_raises_witness :
  process_output 1 Sample.started_line Sample.uninitialised_task
  = (Raise (AttributeError "job_id"),
     Sample.holding Sample.started_record Sample.uninitialised_task).
Proof.
  exact (proj1
           (polling_without_init_task_raises Json.loads Sample.py_str
              Sample.popen Sample.environ Sample.echo 1
              Sample.started_line Sample.started_record
              Sample.uninitialised_task eq_refl eq_refl eq_refl)).
Defined.

Lemma json_task_keeps_the_last_line_witness :
  exists s',
    for_each_line [Sample.list_line; Sample.done_line] Sample.json_task
    = (Return tt, s')
    /\ logger s'
       = [Info_json Sample.list_record; Info_json Sample.done_record]
    /\ return_values s' !! "data" = Some Sample.done_record.
Proof.
  exact (json_task_keeps_the_last_line Json.loads Sample.py_str
           Sample.popen Sample.environ Sample.echo 1
           [Sample.list_line; Sample.done_line]
           [Sample.list_record; Sample.done_record] Sample.json_task
           eq_refl eq_refl).
Defined.

Lemma malformed_line_stops_the_lines_witness :
  exists s',
    for_each_line
      [Sample.list_line; Sample.garbage_line; Sample.done_line]
      Sample.json_task
    = (Raise ValueError, s')
    /\ logger s'
       = [Info_json Sample.list_record; Error_parse Sample.garbage_line]
    /\ return_values s' !! "data" = Some Sample.list_record.
Proof.
  exact (malformed_line_stops_the_lines Json.loads Sample.py_str
           Sample.popen Sample.environ Sample.echo 1 [Sample.list_line]
           [Sample.done_line] Sample.garbage_line [Sample.list_record]
           Sample.json_task eq_refl eq_refl eq_refl).
Defined.

Lemma converter_is_silent_unless_status_is_zero_witness :
  process_output 1 Sample.status_line Sample.convert_to_task
  = (Return tt, Sample.holding Sample.status_record Sample.convert_to_task).
Proof.
  exact (converter_is_silent_unless_status_is_zero Json.loads Sample.py_str
           Sample.popen Sample.environ Sample.echo 1 Sample.status_line
           Sample.status_record Sample.convert_to_task
           (or_intror eq_refl) eq_refl eq_refl).
Defined.

Lemma only_converters_need_a_mapping_witness :
  process_output 1 Sample.list_line Sample.convert_task
  = (Raise (AttributeError "get"),
     Sample.holding Sample.list_record Sample.convert_task).
Proof.
  exact (proj2
           (only_converters_need_a_mapping Json.loads Sample.py_str
              Sample.popen Sample.environ Sample.echo 1 Sample.list_line
              Sample.list_record Sample.convert_task eq_refl I)
           (or_introl eq_refl)).
Defined.

Lemma converter_reports_success_witness :
  process_output 1 Sample.ok_line Sample.convert_task
  = (Return tt,
     add_log (Info_converted_dx "force-app" "src")
       (Sample.holding Sample.ok_record Sample.convert_task)).
Proof.
  exact (converter_reports_success Json.loads Sample.py_str Sample.popen
           Sample.environ Sample.echo 1 Sample.ok_line
           {[ "status" := JInt 0 ]} Sample.convert_task Info_converted_dx
           (or_introl (conj eq_refl eq_refl)) eq_refl eq_refl).
Defined.

Lemma convert_from_nonzero_exit_always_raises_witness :
  fst (SFDXConvertFrom_handle_returncode 2 Sample.convert_task)
  <> Return tt.
Proof.
  assert (2 <> 0)%Z as N by discriminate.
  exact (proj2
           (convert_from_nonzero_exit_always_raises 2 Sample.convert_task
              N)).
Defined.

Lemma convert_failure_reports_the_last_message_witness :
  exists s',
    (for_each_line [Sample.status_line; Sample.failure_line] ;;;
     _handle_returncode 1)%py Sample.convert_task
    = (Raise (CommandException (FromRecord (JString "bad path"))), s')
    /\ logger s' = [Error_message (JString "bad path")]
    /\ return_values s' !! "data" = Some Sample.failure_record.
Proof.
  assert (1 <> 0)%Z as N by discriminate.
  exact (convert_failure_reports_the_last_message Json.loads Sample.py_str
           Sample.popen Sample.environ Sample.echo 1
           [Sample.status_line; Sample.failure_line]
           [Sample.status_record; Sample.failure_record]
           {[ "status" := JInt 1; "message" := JString "bad path" ]}
           (JString "bad path") 1 Sample.convert_task
           eq_refl eq_refl eq_refl eq_refl eq_refl N).
Defined.

Lemma session_variables_override_inherited_witness :
  exists env,
    _get_env Sample.environ Sample.keychain_task
    = (Return env, Sample.keychain_task)
    /\ env !! "SFDX_INSTANCE_URL" = Some "https://na1.salesforce.com"
    /\ env !! "SFDX_USERNAME" = Some "00D!token"
    /\ (forall k,
          k <> "SFDX_INSTANCE_URL" -> k <> "SFDX_USERNAME" ->
          env !! k = Sample.environ Sample.keychain_task !! k).
Proof.
  exact (session_variables_override_inherited Sample.environ
           Sample.keychain_task Sample.keychain_org
           (or_intror eq_refl) eq_refl eq_refl).
Defined.

Lemma every_command_starts_with_the_cli_witness :
  String.prefix "sfdx "
    "sfdx force:source:convert -r force-app -d src --json" = true.
Proof.
  exact (every_command_starts_with_the_cli Sample.py_str
           Sample.convert_task
           "sfdx force:source:convert -r force-app -d src --json"
           (or_introl eq_refl)).
Defined.

Lemma converter_command_needs_src_and_dest_witness :
  _get_command Sample.convert_task
  = (Return "sfdx force:source:convert -r force-app -d src --json",
     Sample.convert_task).
Proof.
  exact (converter_command_needs_src_and_dest Sample.convert_task
           (or_introl eq_refl)).
Defined.

Lemma init_options_stores_the_prefixed_command_witness :
  SFDXBaseTask_get_command
    (set_option "command" "sfdx force:mdapi:deploy"
       (Sample.new_task SFDXJsonTask Sample.deploy_options None))
  = "sfdx sfdx force:mdapi:deploy".
Proof.
  exact (proj1
           (proj2
              (init_options_stores_the_prefixed_command
                 Sample.init_options ∅
                 (Sample.new_task SFDXJsonTask Sample.deploy_options None)
                 (Sample.new_task SFDXJsonTask Sample.deploy_options None)
                 "sfdx force:mdapi:deploy" eq_refl eq_refl))).
Defined.

Lemma deploy_and_poll_commands_extend_the_org_command_witness :
  _get_command Sample.polling_task
  = (Return "sfdx force:mdapi:deploy -u test-user@example.com -d src",
     Sample.polling_task)
  /\ get_poll_command Sample.polling_task
     = (Return
          (Some "sfdx force:mdapi:deploy -u test-user@example.com -i J1"),
        Sample.polling_task).
Proof.
  exact (deploy_and_poll_commands_extend_the_org_command Sample.py_str
           Sample.polling_task (JString "J1") eq_refl eq_refl eq_refl).
Defined.

Lemma poll_action_without_a_command_witness :
  exists env,
    _get_env Sample.environ Sample.deploy_task
    = (Return env, Sample.deploy_task)
    /\ SFDXJsonPollingTask_poll_action Sample.py_str Sample.popen
         Sample.environ (fun _ => ret tt) Sample.deploy_task
       = Command_run_command Sample.popen (fun _ => ret tt)
           _handle_returncode env None Sample.deploy_task.
Proof.
  exact (proj2
           (poll_action_without_a_command Sample.py_str Sample.popen
              Sample.environ (fun _ => ret tt) Sample.deploy_task
              Sample.scratch_org eq_refl)
           eq_refl JNull eq_refl eq_refl).
Defined.

Lemma polling_task_never_finishes_a_line_witness :
  fst (process_output 5 Sample.started_line Sample.deploy_task)
  <> Return tt
  /\ poll_complete
       (snd (process_output 5 Sample.started_line Sample.deploy_task))
     = false.
Proof.
  exact (polling_task_never_finishes_a_line Json.loads Sample.py_str
           Sample.popen Sample.environ Sample.echo 5 Sample.started_line
           Sample.deploy_task eq_refl eq_refl).
Defined.
